(** * Plane-Alert: the alert pipeline of docker-planefence

    A shallow embedding of
      - [rootfs/usr/share/plane-alert/send-discord-alert.py]
        ([load_alerts], [process_alerts]) and
      - [rootfs/usr/lib/python3/dist-packages/pflib/__init__.py]
        ([load_planefile], [get_plane_info], [flightaware_link],
         [is_emergency], [send]),
    with the stale copy of the library under [python3.7/pflib] kept in
    [Module Legacy] for comparison.

    Conventions.
      - A Python [str] is a [string]; a character is its code point, so the
        model covers text whose code points are below 256.
      - [csv.reader] is the boundary of the model: a feed file is the list
        of rows the reader yields, a row being a list of fields; a blank
        line is the empty row.
      - A Python exception is a [Raise] in the [result] monad; indexing and
        dictionary subscripts are the fallible operations.
      - A Python [dict] is a [gmap] keyed by strings. *)

From Stdlib Require Import ZArith Ascii String List.
From stdpp Require Import gmap strings list fin_maps.

Local Open Scope string_scope.

(** ** Python strings *)

Module PyStr.

(** [str.isspace] on one character, for code points below 256:
    TAB..CR, FS..US, SPACE, NEL and NBSP. *)
Definition isspace (c : ascii) : bool :=
  let n := nat_of_ascii c in
  ((9 <=? n)%nat && (n <=? 13)%nat) || ((28 <=? n)%nat && (n <=? 32)%nat)
  || (n =? 133)%nat || (n =? 160)%nat.

Fixpoint lstrip (s : string) : string :=
  match s with
  | EmptyString => EmptyString
  | String c s' => if isspace c then lstrip s' else s
  end.

Fixpoint rstrip (s : string) : string :=
  match s with
  | EmptyString => EmptyString
  | String c s' =>
      match rstrip s' with
      | EmptyString => if isspace c then EmptyString else String c EmptyString
      | r => String c r
      end
  end.

(** [s.strip()] *)
Definition strip (s : string) : string := rstrip (lstrip s).

(** [s.startswith(p)] *)
Definition startswith (s p : string) : bool := String.prefix p s.

(** [s.replace(old, new)] for a one-character [old]. *)
Fixpoint replace (old : ascii) (new : string) (s : string) : string :=
  match s with
  | EmptyString => EmptyString
  | String c s' =>
      if Ascii.eqb c old then new +:+ replace old new s'
      else String c (replace old new s')
  end.

(** [c in s] for a character. *)
Fixpoint contains (c : ascii) (s : string) : bool :=
  match s with
  | EmptyString => false
  | String c' s' => Ascii.eqb c' c || contains c s'
  end.

(** Some character of [s] is white space. *)
Fixpoint has_space (s : string) : bool :=
  match s with
  | EmptyString => false
  | String c s' => isspace c || has_space s'
  end.

(** Every character of [s] is white space. *)
Fixpoint all_space (s : string) : bool :=
  match s with
  | EmptyString => true
  | String c s' => isspace c && all_space s'
  end.

(** The first and the last character of [s], when there is one. *)
Definition first (s : string) : option ascii :=
  match s with EmptyString => None | String c _ => Some c end.

Fixpoint last (s : string) : option ascii :=
  match s with
  | EmptyString => None
  | String c EmptyString => Some c
  | String _ s' => last s'
  end.

(** [s] neither starts nor ends with white space. *)
Definition trimmed (s : string) : Prop :=
  (forall c, first s = Some c -> isspace c = false) /\
  (forall c, last s = Some c -> isspace c = false).

End PyStr.

(** ** Exceptions *)

Inductive exn : Type :=
| IndexError
| KeyError (k : string)
| TransportError.

Inductive result (A : Type) : Type :=
| Ok (a : A)
| Raise (e : exn).
Arguments Ok {A} a.
Arguments Raise {A} e.

Definition bind {A B : Type} (m : result A) (k : A -> result B) : result B :=
  match m with
  | Ok a => k a
  | Raise e => Raise e
  end.

Declare Scope py_scope.
Delimit Scope py_scope with py.
Notation "'let!' x ':=' m 'in' k" := (bind m (fun x => k))
  (at level 10, x name, m at level 100, k at level 200) : py_scope.
Local Open Scope py_scope.

(** A row as [csv.reader] yields it. *)
Abbreviation row := (list string).

(** [row[i]] for a literal index [i >= 0]. *)
Definition item (r : row) (i : nat) : result string :=
  match r !! i with
  | Some x => Ok x
  | None => Raise IndexError
  end.

(** [d[k]] and [d.get(k, dflt)] on a dictionary of strings. *)
Definition getitem (d : gmap string string) (k : string) : result string :=
  match d !! k with
  | Some v => Ok v
  | None => Raise (KeyError k)
  end.

Definition get (d : gmap string string) (k dflt : string) : string :=
  default dflt (d !! k).

(** ** The alert loader ([send-discord-alert.py]) *)

(** The dictionary [load_alerts] appends for a row; it is built from a
    literal with these eleven keys, so it is a record here. *)
Record Alert : Type := mkAlert {
  icao : string;
  tail_num : string;
  owner : string;
  plane_desc : string;
  date : string;
  time : string;
  lat : string;
  long : string;
  callsign : string;
  adsbx_url : string;
  squawk : string
}.

(** The dictionary literal of [load_alerts], its items evaluated in order. *)
Definition alert_of_row (r : row) : result Alert :=
  let! r0 := item r 0 in
  let! r1 := item r 1 in
  let! r2 := item r 2 in
  let! r3 := item r 3 in
  let! r4 := item r 4 in
  let! r5 := item r 5 in
  let! r6 := item r 6 in
  let! r7 := item r 7 in
  let! r8 := item r 8 in
  let! r9 := item r 9 in
  let! r10 := (if (10 <? length r)%nat then item r 10 else Ok "") in
  Ok {| icao := PyStr.strip r0;
        tail_num := PyStr.strip r1;
        owner := PyStr.strip r2;
        plane_desc := r3;
        date := r4;
        time := r5;
        lat := r6;
        long := r7;
        callsign := PyStr.strip r8;
        adsbx_url := r9;
        squawk := r10 |}.

(** [len(row) < 10 or row[0].startswith("#")], with the short circuit. *)
Definition alert_row_skipped (r : row) : result bool :=
  if (length r <? 10)%nat then Ok true
  else let! r0 := item r 0 in Ok (PyStr.startswith r0 "#").

(** The [for row in reader] loop, [alerts] being the list built so far. *)
Fixpoint load_alerts_loop (reader : list row) (alerts : list Alert)
  : result (list Alert) :=
  match reader with
  | [] => Ok alerts
  | r :: reader' =>
      let! skip := alert_row_skipped r in
      if (skip : bool) then load_alerts_loop reader' alerts
      else let! a := alert_of_row r in load_alerts_loop reader' (alerts ++ [a])
  end.

Definition load_alerts (reader : list row) : result (list Alert) :=
  load_alerts_loop reader [].

(** ** The reference registry ([pflib], the copy under [dist-packages]) *)

(** A dictionary literal: the items are stored in the order written. *)
Definition mkdict (items : list (string * string)) : gmap string string :=
  fold_left (fun d kv => <[kv.1 := kv.2]> d) items ∅.

(** [row[i] if len(row) > i else ""] *)
Definition item_or_empty (r : row) (i : nat) : result string :=
  if (i <? length r)%nat then item r i else Ok "".

(** [row[0].startswith("#") or not row]: the subscript is evaluated first. *)
Definition plane_row_skipped (r : row) : result bool :=
  let! r0 := item r 0 in
  Ok (PyStr.startswith r0 "#" || match r with [] => true | _ => false end).

(** The dictionary literal [plane = {...}] of [load_planefile]. *)
Definition plane_of_row (r : row) : result (gmap string string) :=
  let! r0 := item r 0 in
  let! r1 := item r 1 in
  let! r2 := item r 2 in
  let! r3 := item r 3 in
  let! r4 := item_or_empty r 4 in
  let! r5 := item_or_empty r 5 in
  let! r6 := item_or_empty r 6 in
  let! r7 := item_or_empty r 7 in
  let! r8 := item_or_empty r 8 in
  let! r9 := item_or_empty r 9 in
  let! r10 := item_or_empty r 10 in
  Ok (mkdict [("icao", r0); ("tail_num", r1); ("owner", r2); ("type", r3);
              ("icao_type", r4); ("authority", r5); ("tag1", r6);
              ("tag2", r7); ("tag3", r8); ("category", r9); ("link", r10)]).

(** The [for row in reader] loop of [load_planefile]; the global [planedb]
    is passed along. *)
Fixpoint load_planefile_loop (reader : list row)
    (planedb : gmap string (gmap string string))
  : result (gmap string (gmap string string)) :=
  match reader with
  | [] => Ok planedb
  | r :: reader' =>
      let! skip := plane_row_skipped r in
      if (skip : bool) then load_planefile_loop reader' planedb
      else
        let! plane := plane_of_row r in
        let! key := getitem plane "icao" in
        load_planefile_loop reader' (<[key := plane]> planedb)
  end.

(** [load_planefile]: [planedb = {}] and then the loop. *)
Definition load_planefile (reader : list row)
  : result (gmap string (gmap string string)) :=
  load_planefile_loop reader ∅.

(** [planedb.get(icao, {})] *)
Definition get_plane_info (planedb : gmap string (gmap string string))
    (icao : string) : gmap string string :=
  default ∅ (planedb !! icao).

(** ** Derived fields ([pflib]) *)

Definition flightaware_link (icao tail_num : string) : string :=
  let icao := PyStr.strip icao in
  let icao := PyStr.replace "[" "" icao in
  let icao := PyStr.replace "]" "" icao in
  let tail_num := PyStr.strip tail_num in
  let tail_num := PyStr.replace "[" "" tail_num in
  let tail_num := PyStr.replace "]" "" tail_num in
  "https://flightaware.com/live/modes/" +:+ icao +:+ "/ident/" +:+ tail_num
    +:+ "/redirect".

(** [squawk in ('7700', '7600', '7500')] *)
Definition is_emergency (squawk : string) : bool :=
  existsb (String.eqb squawk) ["7700"; "7600"; "7500"].

(** ** The embed ([pflib.embed]) *)

(** Modelled from the spec: [pflib/embed.py] ([embed.build],
    [embed.field]) is not among the sources.  The spec's
    NotificationPayload is "an ordered list of label/value pairs plus a
    title, description, and color", and a label/value pair "is appended to
    the payload". *)
Record Embed : Type := mkEmbed {
  title : string;
  description : string;
  color : Z;
  fields : list (string * string)
}.

Module embed.

(** Modelled from the spec: [embed.build(title, description, color=color)]
    of the absent [pflib/embed.py], a payload with these three parts and no
    pair yet. *)
Definition build (title description : string) (color : Z) : Embed :=
  mkEmbed title description color [].

(** Modelled from the spec: [embed.field(embed, name, value)] of the absent
    [pflib/embed.py], which appends one label/value pair. *)
Definition field (e : Embed) (name value : string) : Embed :=
  mkEmbed (title e) (description e) (color e) (fields e ++ [(name, value)]).

End embed.

(** ** Building one notification ([send-discord-alert.py]) *)

(** The line feed of the Python literal ["\n"]. *)
Definition nl : string := String (ascii_of_nat 10) EmptyString.

(** [config] holds the settings as strings; the two webhook entries, which
    [load_config] splits on commas, stay in their comma-separated form. *)
Abbreviation Config := (gmap string string).

(** The calls of [pf.embed.field] in the loop of [process_alerts], from the
    feeder name to the link.  [e] is the embed object, updated by each
    call. *)
Definition attach_fields (config : Config) (dbinfo : gmap string string)
    (plane : Alert) (fa_link : string) (e : Embed) : result Embed :=
  let! e :=
    if negb (String.eqb (get config "DISCORD_FEEDER_NAME" "") "")
    then let! v := getitem config "DISCORD_FEEDER_NAME" in
         Ok (embed.field e "Feeder" v)
    else Ok e in
  let e := embed.field e "ICAO" (icao plane) in
  let e := embed.field e "Tail Number"
             ("[" +:+ tail_num plane +:+ "](" +:+ fa_link +:+ ")") in
  let e :=
    if negb (String.eqb (callsign plane) "")
    then embed.field e "Callsign" (callsign plane)
    else e in
  let! e :=
    if negb (String.eqb (get dbinfo "category" "") "")
    then let! v := getitem dbinfo "category" in Ok (embed.field e "Category" v)
    else Ok e in
  let! e :=
    if negb (String.eqb (get dbinfo "tag1" "") "")
    then let! v := getitem dbinfo "tag1" in Ok (embed.field e "Tag" v)
    else Ok e in
  let! e :=
    if negb (String.eqb (get dbinfo "tag2" "") "")
    then let! v := getitem dbinfo "tag2" in Ok (embed.field e "Tag" v)
    else Ok e in
  let! e :=
    if negb (String.eqb (get dbinfo "tag3" "") "")
    then let! v := getitem dbinfo "tag3" in Ok (embed.field e "Tag" v)
    else Ok e in
  let! e :=
    if negb (String.eqb (get dbinfo "link" "") "")
    then let! v := getitem dbinfo "link" in
         Ok (embed.field e "Link" ("[Learn More](" +:+ v +:+ ")"))
    else Ok e in
  Ok e.

(** The body of the loop of [process_alerts] up to the call of [pf.send]:
    the embed built for [plane]. *)
Definition build_alert_embed (config : Config)
    (planedb : gmap string (gmap string string)) (plane : Alert)
  : result Embed :=
  let dbinfo := get_plane_info planedb (icao plane) in
  let fa_link := flightaware_link (icao plane) (tail_num plane) in
  let title := "Plane Alert - " +:+ plane_desc plane in
  let color := 0xf2e718%Z in
  let squawk := squawk plane in
  let '(title, color) :=
    if is_emergency squawk
    then ("Air Emergency! " +:+ tail_num plane +:+ " squawked " +:+ squawk,
          0xff0000%Z)
    else (title, color) in
  let description := "" in
  let description :=
    if negb (String.eqb (owner plane) "")
    then "Operated by **" +:+ owner plane +:+ "**"
    else description in
  let description :=
    description +:+ nl +:+ "[Track on ADS-B Exchange](" +:+ adsbx_url plane
      +:+ ")" in
  let e := embed.build title description color in
  attach_fields config dbinfo plane fa_link e.

(** ** Delivery ([pflib.send]) and the processing loop *)

(** [s.upper()] for a string of ASCII characters: the letters a..z are
    mapped and every other ASCII character is kept.  The one caller
    passes ["PA"].  Beyond ASCII Python maps further letters (e-acute,
    sharp s), which [upper] leaves as they are, so a statement about a
    subsystem name that is not fixed carries [isascii]. *)
Definition upper_char (c : ascii) : ascii :=
  let n := nat_of_ascii c in
  if ((97 <=? n)%nat && (n <=? 122)%nat)%bool then ascii_of_nat (n - 32) else c.

Fixpoint upper (s : string) : string :=
  match s with
  | EmptyString => EmptyString
  | String c s' => String (upper_char c) (upper s')
  end.

(** [s.isascii()]: every character is below 128. *)
Fixpoint isascii (s : string) : bool :=
  match s with
  | EmptyString => true
  | String c s' => ((nat_of_ascii c <? 128)%nat && isascii s')%bool
  end.

Section Delivery.

(** Whatever the webhook library acts on: the network, the file system
    with the snapshot, the clock. *)
Context {World : Type}.

(** The webhook of [send], from [dw.DiscordWebhook(url=urls)] to
    [webhook.execute()], with [attach_media] in between: given the
    destination list and the media setting it either returns, with the
    flag telling whether the message was accepted, or raises. *)
Variable webhook : World -> string -> string -> Embed -> World * result bool.

(** The state of a run: the world, and the embeds handed to the webhook
    so far, in the order of the calls. *)
Record Run : Type := mkRun {
  world : World;
  handed : list Embed
}.

(** [send(config, subsystem, embed)].  The webhook object is created and
    given the embed between the two subscripts of [config], and nothing
    leaves before [execute], so both subscripts come first here; what
    [execute] returns is dropped. *)
Definition send (config : Config) (subsystem : string) (e : Embed)
    (st : Run) : Run * result unit :=
  match getitem config (upper subsystem +:+ "_DISCORD_WEBHOOKS") with
  | Raise x => (st, Raise x)
  | Ok urls =>
      match getitem config "DISCORD_MEDIA" with
      | Raise x => (st, Raise x)
      | Ok media =>
          let '(w, r) := webhook (world st) urls media e in
          (mkRun w (handed st ++ [e]),
           match r with Ok _ => Ok tt | Raise x => Raise x end)
      end
  end.

(** [process_alerts(config, alerts)]: the loop has no handler, so an
    exception leaves it. *)
Fixpoint process_alerts (config : Config)
    (planedb : gmap string (gmap string string)) (alerts : list Alert)
    (st : Run) : Run * result unit :=
  match alerts with
  | [] => (st, Ok tt)
  | plane :: alerts' =>
      match build_alert_embed config planedb plane with
      | Raise x => (st, Raise x)
      | Ok e =>
          let '(st', r) := send config "PA" e st in
          match r with
          | Raise x => (st', Raise x)
          | Ok _ => process_alerts config planedb alerts' st'
          end
      end
  end.

End Delivery.

Arguments mkRun {World} _ _.
Arguments world {World} _.
Arguments handed {World} _.

(** ** The stale copy of the library ([python3.7/pflib]) *)

Module Legacy.

(** No stripping, and a stray bracket after the tail number. *)
Definition flightaware_link (icao tail_num : string) : string :=
  "https://flightaware.com/live/modes/" +:+ icao +:+ "/ident/" +:+ tail_num
    +:+ "]/redirect".

(** Only [row[10]] is guarded. *)
Definition plane_of_row (r : row) : result (gmap string string) :=
  let! r0 := item r 0 in
  let! r1 := item r 1 in
  let! r2 := item r 2 in
  let! r3 := item r 3 in
  let! r4 := item r 4 in
  let! r5 := item r 5 in
  let! r6 := item r 6 in
  let! r7 := item r 7 in
  let! r8 := item r 8 in
  let! r9 := item r 9 in
  let! r10 := item_or_empty r 10 in
  Ok (mkdict [("icao", r0); ("tail_num", r1); ("owner", r2); ("type", r3);
              ("icao_type", r4); ("authority", r5); ("tag1", r6);
              ("tag2", r7); ("tag3", r8); ("category", r9); ("link", r10)]).

Fixpoint load_planefile_loop (reader : list row)
    (planedb : gmap string (gmap string string))
  : result (gmap string (gmap string string)) :=
  match reader with
  | [] => Ok planedb
  | r :: reader' =>
      let! r0 := item r 0 in
      if PyStr.startswith r0 "#" then load_planefile_loop reader' planedb
      else
        let! plane := plane_of_row r in
        let! key := getitem plane "icao" in
        load_planefile_loop reader' (<[key := plane]> planedb)
  end.

Definition load_planefile (reader : list row)
  : result (gmap string (gmap string string)) :=
  load_planefile_loop reader ∅.

End Legacy.

(** * Specification-side definitions *)

(** ** The alert loader *)

(** A row the loader rejects, in the words of the specification: it has
    fewer than ten fields, or its first field starts with [#]. *)
Definition rejected (r : row) : Prop :=
  length r < 10 \/
  exists f rest, r = f :: rest /\ PyStr.startswith f "#" = true.

Definition valid_row (r : row) : bool :=
  (10 <=? length r)%nat && negb (PyStr.startswith (nth 0 r "") "#").

(** The record of a valid row, field by field. *)
Definition record_of (r : row) : Alert :=
  {| icao := PyStr.strip (nth 0 r "");
     tail_num := PyStr.strip (nth 1 r "");
     owner := PyStr.strip (nth 2 r "");
     plane_desc := nth 3 r "";
     date := nth 4 r "";
     time := nth 5 r "";
     lat := nth 6 r "";
     long := nth 7 r "";
     callsign := PyStr.strip (nth 8 r "");
     adsbx_url := nth 9 r "";
     squawk := nth 10 r "" |}.

(** ** Stripping and brackets *)

(** [t] is [s] without its surrounding white space. *)
Definition stripped_of (s t : string) : Prop :=
  exists l r, s = l +:+ t +:+ r /\
    PyStr.all_space l = true /\ PyStr.all_space r = true /\ PyStr.trimmed t.

(** [s] with every ["["] and ["]"] dropped. *)
Fixpoint without_brackets (s : string) : string :=
  match s with
  | EmptyString => EmptyString
  | String c s' =>
      if (Ascii.eqb c "[" || Ascii.eqb c "]")%bool then without_brackets s'
      else String c (without_brackets s')
  end.

(** ** The registry *)

(** The entry of a row, column by column; a column the row lacks reads as
    the empty string. *)
Definition entry_of (r : row) : gmap string string :=
  mkdict [("icao", nth 0 r ""); ("tail_num", nth 1 r ""); ("owner", nth 2 r "");
          ("type", nth 3 r ""); ("icao_type", nth 4 r "");
          ("authority", nth 5 r ""); ("tag1", nth 6 r ""); ("tag2", nth 7 r "");
          ("tag3", nth 8 r ""); ("category", nth 9 r ""); ("link", nth 10 r "")].

(** The first field starts with [#]. *)
Definition comment_row (r : row) : bool :=
  PyStr.startswith (nth 0 r "") "#".

(** The rows the loop gets through: a comment, or four fields and more. *)
Definition loadable (r : row) : bool :=
  match r with
  | [] => false
  | _ :: _ => comment_row r || (4 <=? length r)%nat
  end.

(** The table the loop builds when no row stops it. *)
Fixpoint registry_of (reader : list row)
    (planedb : gmap string (gmap string string))
  : gmap string (gmap string string) :=
  match reader with
  | [] => planedb
  | r :: reader' =>
      if comment_row r then registry_of reader' planedb
      else registry_of reader' (<[nth 0 r "" := entry_of r]> planedb)
  end.

(** ** The notification *)

(** The nine places of a payload, in display order. *)
Inductive slot : Type :=
| Feeder | ICAO | TailNumber | Callsign | Category | Tag1 | Tag2 | Tag3 | Link.

Definition slots : list slot :=
  [Feeder; ICAO; TailNumber; Callsign; Category; Tag1; Tag2; Tag3; Link].

Section Payload.

Variable config : Config.
Variable dbinfo : gmap string string.
Variable plane : Alert.

(** The value a place shows. *)
Definition underlying (s : slot) : string :=
  match s with
  | Feeder => get config "DISCORD_FEEDER_NAME" ""
  | ICAO => icao plane
  | TailNumber => tail_num plane
  | Callsign => callsign plane
  | Category => get dbinfo "category" ""
  | Tag1 => get dbinfo "tag1" ""
  | Tag2 => get dbinfo "tag2" ""
  | Tag3 => get dbinfo "tag3" ""
  | Link => get dbinfo "link" ""
  end.

(** The label/value pair of a place. *)
Definition rendered (s : slot) : string * string :=
  match s with
  | Feeder => ("Feeder", underlying Feeder)
  | ICAO => ("ICAO", underlying ICAO)
  | TailNumber =>
      ("Tail Number",
       "[" +:+ underlying TailNumber +:+ "]("
         +:+ flightaware_link (icao plane) (tail_num plane) +:+ ")")
  | Callsign => ("Callsign", underlying Callsign)
  | Category => ("Category", underlying Category)
  | Tag1 => ("Tag", underlying Tag1)
  | Tag2 => ("Tag", underlying Tag2)
  | Tag3 => ("Tag", underlying Tag3)
  | Link => ("Link", "[Learn More](" +:+ underlying Link +:+ ")")
  end.

(** The places with a pair: ICAO and Tail Number always, the others when
    their value is not empty. *)
Definition included (s : slot) : bool :=
  match s with
  | ICAO | TailNumber => true
  | _ => negb (String.eqb (underlying s) "")
  end.

End Payload.

(** A 24-bit colour from its red, green and blue parts. *)
Definition rgb (r g b : Z) : Z := (r * 65536 + g * 256 + b)%Z.

(** The "operated by" clause and the tracking line of a description. *)
Definition operated_by (plane : Alert) : string :=
  "Operated by **" +:+ owner plane +:+ "**".

Definition tracking_line (plane : Alert) : string :=
  "[Track on ADS-B Exchange](" +:+ adsbx_url plane +:+ ")".

(** The embed of an alert in closed form. *)
Definition embed_of (config : Config) (dbinfo : gmap string string)
    (plane : Alert) : Embed :=
  {| title :=
       if is_emergency (squawk plane)
       then "Air Emergency! " +:+ tail_num plane +:+ " squawked "
              +:+ squawk plane
       else "Plane Alert - " +:+ plane_desc plane;
     description :=
       (if String.eqb (owner plane) "" then "" else operated_by plane)
         +:+ nl +:+ tracking_line plane;
     color := if is_emergency (squawk plane) then rgb 255 0 0
              else rgb 242 231 24;
     fields := map (rendered config dbinfo plane)
                 (List.filter (included config dbinfo plane) slots) |}.

(** ** Sample feeds *)

Module Sample.

(** The reference row of the specification's end-to-end scenario. *)
Definition ref_row : row :=
  ["A51316"; "N426NA"; "NASA"; "Lockheed P-3B Orion"; "P3"; "Gov";
   "Sce To Aux"; "Airborne Science"; "Wallops Flight Facility";
   "Distinctive"; "https://nasa.gov"].

(** A second, four-field row for the same aircraft address. *)
Definition ref_row_again : row :=
  ["A51316"; "N999ZZ"; "Somebody Else"; "Cessna 172"].

(** The reference row with a blank before the address. *)
Definition ref_row_padded : row :=
  [" A51316"; "N426NA"; "NASA"; "Lockheed P-3B Orion"].

(** The alert row of the scenario, with the tail number, the owner and the
    squawk left open. *)
Definition alert_row (tail owner squawk : string) : row :=
  ["A51316"; tail; owner; "Lockheed P-3B Orion"; "2022-01-01"; "12:00:00";
   "10.0"; "-70.0"; "NASA1"; "https://adsbexchange.com/x"; squawk].

Definition alert (tail owner squawk : string) : Alert :=
  {| icao := "A51316";
     tail_num := tail;
     owner := owner;
     plane_desc := "Lockheed P-3B Orion";
     date := "2022-01-01";
     time := "12:00:00";
     lat := "10.0";
     long := "-70.0";
     callsign := "NASA1";
     adsbx_url := "https://adsbexchange.com/x";
     squawk := squawk |}.

(** The configuration [load_config] builds from its defaults, with one
    webhook set. *)
Definition config : Config :=
  mkdict [("PLANEFILE",
           "/usr/share/planefence/persist/.internal/plane-alert-db.txt");
          ("PA_DISCORD_WEBHOOKS", "https://discord.example/hook");
          ("PF_DISCORD_WEBHOOKS", "");
          ("DISCORD_FEEDER_NAME", "");
          ("DISCORD_MEDIA", "")].

(** A webhook that returns every time, the message refused. *)
Definition refusing (w : unit) (urls media : string) (e : Embed)
  : unit * result bool := (w, Ok false).

(** A webhook that raises every time. *)
Definition raising (w : unit) (urls media : string) (e : Embed)
  : unit * result bool := (w, Raise TransportError).

(** A webhook that counts its calls in the world and raises at call
    number [n], counted from 0; every other call returns, the message
    refused. *)
Definition raising_at (n : nat) (w : nat) (urls media : string) (e : Embed)
  : nat * result bool :=
  if (w =? n)%nat then (S w, Raise TransportError) else (S w, Ok false).

End Sample.

(** * More of the program *)

(** ** Further specification-side definitions *)

(** The eleven keys of the dictionary literal of [load_planefile]. *)
Definition plane_keys : gset string :=
  list_to_set ["icao"; "tail_num"; "owner"; "type"; "icao_type"; "authority";
               "tag1"; "tag2"; "tag3"; "category"; "link"].

(** The first fields of the rows that are not comments, in file order. *)
Definition registry_keys (reader : list row) : list string :=
  map (fun r => nth 0 r "") (List.filter (fun r => negb (comment_row r)) reader).

(** The rows the loop of the stale copy gets through: a comment, or ten
    fields and more. *)
Definition legacy_loadable (r : row) : bool :=
  match r with
  | [] => false
  | _ :: _ => comment_row r || (10 <=? length r)%nat
  end.

(** [plane] with another squawk. *)
Definition with_squawk (plane : Alert) (sq : string) : Alert :=
  {| icao := icao plane;
     tail_num := tail_num plane;
     owner := owner plane;
     plane_desc := plane_desc plane;
     date := date plane;
     time := time plane;
     lat := lat plane;
     long := long plane;
     callsign := callsign plane;
     adsbx_url := adsbx_url plane;
     squawk := sq |}.

(** ** More of Python's strings *)

Module PyText.

(** [s.split(sep)] for a one-character [sep]. *)
Fixpoint split (sep : ascii) (s : string) : list string :=
  match s with
  | EmptyString => [EmptyString]
  | String c s' =>
      if Ascii.eqb c sep then EmptyString :: split sep s'
      else match split sep s' with
           | x :: xs => String c x :: xs
           | [] => [String c EmptyString]
           end
  end.

(** [sep.join(l)] for a one-character [sep]. *)
Fixpoint join (sep : ascii) (l : list string) : string :=
  match l with
  | [] => EmptyString
  | [x] => x
  | x :: l' => x +:+ String sep (join sep l')
  end.

(** [s.count(c)] for a character. *)
Fixpoint count (c : ascii) (s : string) : nat :=
  match s with
  | EmptyString => 0
  | String c' s' => (if Ascii.eqb c' c then 1 else 0) + count c s'
  end.

(** [c.isdigit()] for one character, for code points below 256: the
    digits 0..9 and the superscripts two, three and one. *)
Definition isdigit_char (c : ascii) : bool :=
  let n := nat_of_ascii c in
  ((48 <=? n)%nat && (n <=? 57)%nat) || (n =? 178)%nat || (n =? 179)%nat
  || (n =? 185)%nat.

(** The digits 0..9, which are the ones [int] reads. *)
Definition isdecimal_char (c : ascii) : bool :=
  let n := nat_of_ascii c in (48 <=? n)%nat && (n <=? 57)%nat.

Fixpoint all_chars (p : ascii -> bool) (s : string) : bool :=
  match s with
  | EmptyString => true
  | String c s' => p c && all_chars p s'
  end.

(** [s.isdigit()]: at least one character, and digits only. *)
Definition isdigit (s : string) : bool :=
  match s with
  | EmptyString => false
  | String _ _ => all_chars isdigit_char s
  end.

(** The number written by a string of digits 0..9, after [acc]. *)
Fixpoint decimal_value (acc : Z) (s : string) : Z :=
  match s with
  | EmptyString => acc
  | String c s' =>
      decimal_value (acc * 10 + (Z.of_nat (nat_of_ascii c) - 48))%Z s'
  end.

End PyText.

(** ** The configuration ([pflib.load_config]) *)

(** A value of the dictionary [load_config] returns: a string, or, for the
    two webhook settings, the list of the pieces between commas. *)
Inductive value : Type :=
| VStr (s : string)
| VList (l : list string).

(** What a run finds outside: the variables of the environment, the text
    files by path as [readlines] gives them, and the csv files by path as
    [csv.reader] gives them.  [Some] is a file that is there, is opened
    and is read to its end as these lines or rows; [None] is a path with
    no file, where [exists] is false and [open] raises
    [FileNotFoundError].  A file that is there and cannot be opened or
    read (a directory, a missing permission, bytes that are no text, a
    csv error) is not described by this record: a statement about the way
    a run ends names the files that are read. *)
Record Outside : Type := mkOutside {
  environ : gmap string string;
  text_files : string -> option (list string);
  csv_files : string -> option (list row)
}.

(** What ends a run early. *)
Inductive failure : Type :=
| FileNotFoundError (path : string)
| Raised (x : exn)
| SystemExit (code : Z)
| ValueError.

Inductive outcome (A : Type) : Type :=
| Done (a : A)
| Failed (f : failure).
Arguments Done {A} a.
Arguments Failed {A} f.

(** [os.getenv(k, dflt)] *)
Definition getenv (out : Outside) (k dflt : string) : string :=
  default dflt (environ out !! k).

Definition DEFAULT_PLANEFILE : string :=
  "/usr/share/planefence/persist/.internal/plane-alert-db.txt".

(** The dictionary literal at the start of [load_config]. *)
Definition env_config (out : Outside) : Config :=
  mkdict [("PLANEFILE", getenv out "PLANEFILE" DEFAULT_PLANEFILE);
          ("PA_DISCORD_WEBHOOKS", getenv out "PA_DISCORD_WEBHOOKS" "");
          ("PF_DISCORD_WEBHOOKS", getenv out "PF_DISCORD_WEBHOOKS" "");
          ("DISCORD_FEEDER_NAME", getenv out "DISCORD_FEEDER_NAME" "");
          ("DISCORD_MEDIA", getenv out "DISCORD_MEDIA" "")].

(** [f"{pfdir}/planefence.config"] *)
Definition config_path (out : Outside) : string :=
  getenv out "PLANEFENCEDIR" "/usr/share/planefence" +:+ "/planefence.config".

(** The body of the loop over the lines of the configuration file. *)
Definition config_line (config : Config) (line : string) : Config :=
  if PyStr.startswith (PyStr.strip line) "#" then config
  else
    match PyText.split "=" line with
    | [k; v] => <[PyStr.strip k := PyStr.strip v]> config
    | _ => config
    end.

(** The configuration before the type conversions: the environment, then
    the file when it exists. *)
Definition read_config (out : Outside) : Config :=
  let config := env_config out in
  match text_files out (config_path out) with
  | Some lines => fold_left config_line lines config
  | None => config
  end.

(** The type conversions: the two webhook settings are split on commas;
    [str.split] cannot fail, so the handler around them is never entered. *)
Definition convert (config : Config) : gmap string value :=
  let settings : gmap string value := VStr <$> config in
  let settings :=
    <["PA_DISCORD_WEBHOOKS" :=
        VList (PyText.split "," (get config "PA_DISCORD_WEBHOOKS" ""))]>
      settings in
  <["PF_DISCORD_WEBHOOKS" :=
      VList (PyText.split "," (get config "PF_DISCORD_WEBHOOKS" ""))]>
    settings.

(** [load_config()]: the settings and, from [load_planefile(config)], the
    table of the registry; [open] of a missing registry file raises.  The
    conversions leave the [PLANEFILE] entry as it is, so the path is read
    from the strings.  The global [log] is taken to be set by [init_log],
    as [main] does before anything else. *)
Definition load_config (out : Outside)
  : outcome (gmap string value * gmap string (gmap string string)) :=
  let config := read_config out in
  let settings := convert config in
  match getitem config "PLANEFILE" with
  | Raise x => Failed (Raised x)
  | Ok path =>
      match csv_files out path with
      | None => Failed (FileNotFoundError path)
      | Some reader =>
          match load_planefile reader with
          | Ok planedb => Done (settings, planedb)
          | Raise x => Failed (Raised x)
          end
      end
  end.

(** The settings with the two webhook lists written with commas again, the
    form in which [config] is passed to [process_alerts] and [send]
    here. *)
Definition comma_form (settings : gmap string value) : Config :=
  (fun v => match v with
            | VStr s => s
            | VList l => PyText.join "," l
            end) <$> settings.

(** ** The program ([send-discord-alert.py], [main]) *)

Section Main.

Context {World : Type}.
Variable webhook : World -> string -> string -> Embed -> World * result bool.

(** [main()]: [argv] is [sys.argv], [w] the world at the start.  The
    configuration is loaded before the arguments are looked at. *)
Definition main (argv : list string) (out : Outside) (w : World)
  : Run * outcome unit :=
  match load_config out with
  | Failed f => (mkRun w [], Failed f)
  | Done (settings, planedb) =>
      match argv with
      | [_; input_file] =>
          match csv_files out input_file with
          | None => (mkRun w [], Failed (FileNotFoundError input_file))
          | Some reader =>
              match load_alerts reader with
              | Raise x => (mkRun w [], Failed (Raised x))
              | Ok alerts =>
                  let '(st, r) :=
                    process_alerts webhook (comma_form settings) planedb alerts
                      (mkRun w []) in
                  (st, match r with
                       | Ok _ => Done tt
                       | Raise x => Failed (Raised x)
                       end)
              end
          end
      | _ => (mkRun w [], Failed (SystemExit 1))
      end
  end.

End Main.

(** ** Units ([pflib.distance_unit]) *)

Definition distance_unit (config : Config) : string :=
  let cdu := get config "PF_DISTUNIT" "" in
  if String.eqb cdu "nauticalmile" then "nm"
  else if String.eqb cdu "kilometer" then "km"
  else if String.eqb cdu "meter" then "m"
  else "mi".

(** ** Specification-side definitions for the configuration *)

(** The entry a line of the configuration file sets, if any: the line is
    not a comment and has exactly one [=]; key and value are stripped. *)
Definition line_entry (line : string) : option (string * string) :=
  if PyStr.startswith (PyStr.strip line) "#" then None
  else
    match PyText.split "=" line with
    | [k; v] => Some (PyStr.strip k, PyStr.strip v)
    | _ => None
    end.

(** The five settings [load_config] always defines. *)
Definition base_keys : list string :=
  ["PLANEFILE"; "PA_DISCORD_WEBHOOKS"; "PF_DISCORD_WEBHOOKS";
   "DISCORD_FEEDER_NAME"; "DISCORD_MEDIA"].

(** ** Altitudes ([pflib.altitude_str]) *)

Section Altitude.

(** [max_str_digits] is the interpreter's limit on the length of a decimal
    string given to [int], 0 when there is none. *)
Variable max_str_digits : nat.

(** ['{:,}'.format(n)], a built-in, for an integer [n] whose decimal
    digits are within the interpreter's limit; beyond the limit the
    built-in raises [ValueError], which is not followed here, so a
    statement about the text returned carries [within_digit_limit]. *)
Variable format_thousands : Z -> string.

(** [int(s)] for an [s] with [s.isdigit()]: the superscripts are digits
    for [isdigit] and no digits for [int]. *)
Definition int_of_digits (s : string) : outcome Z :=
  if PyText.all_chars PyText.isdecimal_char s
  then if ((0 <? max_str_digits)%nat
           && (max_str_digits <? String.length s)%nat)%bool
       then Failed ValueError
       else Done (PyText.decimal_value 0 s)
  else Failed ValueError.

(** [altitude_str(config, alt)] for an integer [alt]; the last line
    writes the number with [format_thousands]. *)
Definition altitude_str (config : Config) (alt : Z) : outcome string :=
  let alt_actual := alt in
  let alt_type := "MSL" in
  let alt_unit := "ft" in
  let alt_unit :=
    if String.eqb (get config "PF_ALTUNIT" "") "meter" then "m"
    else alt_unit in
  let elevation := 0%Z in
  match (if PyText.isdigit (get config "PF_ELEVATION" "")
         then match getitem config "PF_ELEVATION" with
              | Ok s => int_of_digits s
              | Raise x => Failed (Raised x)
              end
         else Done elevation) with
  | Failed f => Failed f
  | Done elevation =>
      let '(alt_actual, alt_type) :=
        if (0 <? elevation)%Z then ((alt - elevation)%Z, "AGL")
        else (alt_actual, alt_type) in
      Done (format_thousands alt_actual +:+ alt_unit +:+ " " +:+ alt_type)
  end.

End Altitude.

(** The unit text [altitude_str] puts after the number. *)
Definition altitude_unit (config : Config) : string :=
  if String.eqb (get config "PF_ALTUNIT" "") "meter" then "m" else "ft".

(** The integers the interpreter writes in decimal: with a limit of
    [max_str_digits] digits, 0 for none, those of at most that many
    digits, the sign not counted. *)
Definition within_digit_limit (max_str_digits : nat) (n : Z) : bool :=
  ((max_str_digits =? 0)%nat
   || (Z.abs n <? 10 ^ Z.of_nat max_str_digits)%Z)%bool.

(** ** A sample installation *)

Module Setup.

(** No variable is set and there is no configuration file; the registry
    with the scenario's row is at the default path and the feed
    [alerts.csv] holds a header, a routine alert and an emergency. *)
Definition outside : Outside :=
  mkOutside ∅ (fun _ => None)
    (fun path =>
       if String.eqb path DEFAULT_PLANEFILE then Some [Sample.ref_row]
       else if String.eqb path "alerts.csv"
            then Some [["# ICAO"; "TailNr"];
                       Sample.alert_row "N426NA" "NASA" "1200";
                       Sample.alert_row "N426NA" "NASA" "7500"]
            else None).

(** The lines of a configuration file as [readlines] gives them: a
    comment, a webhook and another place for the registry. *)
Definition config_lines : list string :=
  ["# planefence.config" +:+ nl;
   "PA_DISCORD_WEBHOOKS=https://discord.example/hook" +:+ nl;
   "PLANEFILE = /data/plane-alert-db.txt" +:+ nl].

(** The same installation with that configuration file, the registry
    being where the file says. *)
Definition configured : Outside :=
  mkOutside ∅
    (fun path =>
       if String.eqb path "/usr/share/planefence/planefence.config"
       then Some config_lines
       else None)
    (fun path =>
       if String.eqb path "/data/plane-alert-db.txt"
       then Some [Sample.ref_row]
       else if String.eqb path "alerts.csv"
            then Some [["# ICAO"; "TailNr"];
                       Sample.alert_row "N426NA" "NASA" "1200";
                       Sample.alert_row "N426NA" "NASA" "7500"]
            else None).

End Setup.

(** * Properties *)

(** ** The alert loader *)

Lemma valid_row_rejected (r : row) : valid_row r = false <-> rejected r.
Proof.
  unfold valid_row, rejected. split.
  - intros H. apply andb_false_iff in H as [H | H].
    + left. apply Nat.leb_gt in H. exact H.
    + destruct r as [| f rest].
      * left. simpl. lia.
      * right. exists f, rest. split; [reflexivity |].
        simpl in H. now apply negb_false_iff in H.
  - intros [H | (f & rest & -> & H)].
    + apply andb_false_iff. left. now apply Nat.leb_gt.
    + apply andb_false_iff. right. simpl. now rewrite H.
Qed.

Lemma alert_row_skipped_valid (r : row) :
  alert_row_skipped r = Ok (negb (valid_row r)).
Proof.
  unfold alert_row_skipped, valid_row.
  destruct (Nat.ltb_spec (length r) 10) as [Hlt | Hge].
  - replace (10 <=? length r)%nat with false; [reflexivity |].
    symmetry. now apply Nat.leb_gt.
  - replace (10 <=? length r)%nat with true
      by (symmetry; now apply Nat.leb_le).
    destruct r as [| f rest]; [simpl in Hge; lia |].
    simpl. now rewrite negb_involutive.
Qed.

Lemma alert_of_row_long (r : row) :
  10 <= length r -> alert_of_row r = Ok (record_of r).
Proof.
  intros H.
  do 10 (destruct r as [| ? r]; [simpl in H; lia |]).
  destruct r as [| ? r]; reflexivity.
Qed.

Lemma load_alerts_loop_spec (reader : list row) (alerts : list Alert) :
  load_alerts_loop reader alerts
  = Ok (alerts ++ map record_of (List.filter valid_row reader))%list.
Proof.
  revert alerts. induction reader as [| r reader IH]; intros alerts; simpl.
  - now rewrite app_nil_r.
  - rewrite alert_row_skipped_valid. simpl.
    destruct (valid_row r) eqn:Hv; simpl.
    + rewrite alert_of_row_long.
      * simpl. rewrite IH. now rewrite <- app_assoc.
      * unfold valid_row in Hv. apply andb_true_iff in Hv as [Hv _].
        now apply Nat.leb_le in Hv.
    + apply IH.
Qed.

Lemma load_alerts_spec (reader : list row) :
  load_alerts reader = Ok (map record_of (List.filter valid_row reader)).
Proof. unfold load_alerts. now rewrite load_alerts_loop_spec. Qed.
(** ** Stripping *)

Lemma append_cons (c : ascii) (s t : string) :
  String c s +:+ t = String c (s +:+ t).
Proof. reflexivity. Qed.

Lemma append_empty_l (t : string) : "" +:+ t = t.
Proof. reflexivity. Qed.

Lemma append_assoc (s t u : string) : (s +:+ t) +:+ u = s +:+ (t +:+ u).
Proof.
  induction s as [| c s IH]; [reflexivity |].
  rewrite !append_cons. now f_equal.
Qed.

Lemma lstrip_split (s : string) :
  exists l, s = l +:+ PyStr.lstrip s /\ PyStr.all_space l = true.
Proof.
  induction s as [| c s (l & Hs & Hl)]; simpl.
  - now exists "".
  - destruct (PyStr.isspace c) eqn:Hc.
    + exists (String c l). simpl. rewrite Hc, Hl, append_cons.
      split; [now f_equal | reflexivity].
    + now exists "".
Qed.

Lemma rstrip_split (s : string) :
  exists r, s = PyStr.rstrip s +:+ r /\ PyStr.all_space r = true.
Proof.
  induction s as [| c s (r & Hs & Hr)]; simpl.
  - now exists "".
  - destruct (PyStr.rstrip s) as [| a t] eqn:E.
    + rewrite append_empty_l in Hs. subst r.
      destruct (PyStr.isspace c) eqn:Hc.
      * exists (String c s). simpl. now rewrite Hc, Hr.
      * exists s. now rewrite append_cons.
    + exists r. rewrite append_cons. split; [| exact Hr]. f_equal. exact Hs.
Qed.

Lemma lstrip_first (s : string) (c : ascii) :
  PyStr.first (PyStr.lstrip s) = Some c -> PyStr.isspace c = false.
Proof.
  induction s as [| a s IH]; simpl; [discriminate |].
  destruct (PyStr.isspace a) eqn:Ha; [exact IH |].
  simpl. intros [= <-]. exact Ha.
Qed.

Lemma rstrip_first (s : string) (c : ascii) :
  PyStr.first (PyStr.rstrip s) = Some c -> PyStr.first s = Some c.
Proof.
  destruct s as [| a s]; simpl; [discriminate |].
  destruct (PyStr.rstrip s); [destruct (PyStr.isspace a) |]; simpl;
    congruence.
Qed.

Lemma rstrip_last (s : string) (c : ascii) :
  PyStr.last (PyStr.rstrip s) = Some c -> PyStr.isspace c = false.
Proof.
  induction s as [| a s IH]; simpl; [discriminate |].
  destruct (PyStr.rstrip s) as [| b t] eqn:E.
  - destruct (PyStr.isspace a) eqn:Ha; simpl; [discriminate |].
    intros [= <-]. exact Ha.
  - exact IH.
Qed.

Lemma strip_trimmed (s : string) : PyStr.trimmed (PyStr.strip s).
Proof.
  unfold PyStr.strip. split; intros c Hc.
  - apply rstrip_first in Hc. now apply lstrip_first in Hc.
  - now apply rstrip_last in Hc.
Qed.

Lemma strip_stripped_of (s : string) : stripped_of s (PyStr.strip s).
Proof.
  destruct (lstrip_split s) as (l & Hl & Hls).
  destruct (rstrip_split (PyStr.lstrip s)) as (r & Hr & Hrs).
  exists l, r. repeat split; try assumption.
  - unfold PyStr.strip. now rewrite <- Hr.
  - apply strip_trimmed.
  - apply strip_trimmed.
Qed.

Lemma lstrip_id (s : string) :
  (forall c, PyStr.first s = Some c -> PyStr.isspace c = false) ->
  PyStr.lstrip s = s.
Proof.
  destruct s as [| a s]; simpl; [reflexivity |].
  intros H. now rewrite (H a eq_refl).
Qed.

Lemma rstrip_id (s : string) :
  (forall c, PyStr.last s = Some c -> PyStr.isspace c = false) ->
  PyStr.rstrip s = s.
Proof.
  induction s as [| a s IH]; [reflexivity |].
  intros H. destruct s as [| b t].
  - simpl. now rewrite (H a eq_refl).
  - change (PyStr.rstrip (String a (String b t)))
      with (match PyStr.rstrip (String b t) with
            | EmptyString =>
                if PyStr.isspace a then EmptyString else String a EmptyString
            | r => String a r
            end).
    rewrite IH; [reflexivity |]. intros c Hc. apply H. exact Hc.
Qed.

Lemma strip_id (s : string) : PyStr.trimmed s -> PyStr.strip s = s.
Proof.
  intros [Hf Hl]. unfold PyStr.strip.
  rewrite (lstrip_id s Hf). now apply rstrip_id.
Qed.

Lemma strip_idempotent (s : string) :
  PyStr.strip (PyStr.strip s) = PyStr.strip s.
Proof. apply strip_id, strip_trimmed. Qed.

(** ** Brackets *)

Lemma replace_brackets (s : string) :
  PyStr.replace "]" "" (PyStr.replace "[" "" s) = without_brackets s.
Proof.
  induction s as [| c s IH]; simpl; [reflexivity |].
  destruct (Ascii.eqb c "[") eqn:E1; simpl; [exact IH |].
  destruct (Ascii.eqb c "]") eqn:E2; simpl; [exact IH | now rewrite IH].
Qed.

Lemma contains_app (c : ascii) (s t : string) :
  PyStr.contains c (s +:+ t) = (PyStr.contains c s || PyStr.contains c t)%bool.
Proof.
  induction s as [| a s IH]; simpl; [reflexivity |].
  now rewrite IH, orb_assoc.
Qed.

Lemma without_brackets_clean (s : string) :
  PyStr.contains "[" (without_brackets s) = false /\
  PyStr.contains "]" (without_brackets s) = false.
Proof.
  induction s as [| c s [IH1 IH2]]; simpl; [now split |].
  destruct (Ascii.eqb c "[") eqn:E1; simpl; [now split |].
  destruct (Ascii.eqb c "]") eqn:E2; simpl; [now split |].
  now rewrite E1, E2, IH1, IH2.
Qed.

Lemma flightaware_link_shape (icao tail_num : string) :
  flightaware_link icao tail_num
  = "https://flightaware.com/live/modes/"
      +:+ without_brackets (PyStr.strip icao) +:+ "/ident/"
      +:+ without_brackets (PyStr.strip tail_num) +:+ "/redirect".
Proof. unfold flightaware_link. now rewrite !replace_brackets. Qed.

(** ** The registry *)

Lemma plane_of_row_long (r : row) :
  4 <= length r -> plane_of_row r = Ok (entry_of r).
Proof.
  intros H.
  do 4 (destruct r as [| ? r]; [simpl in H; lia |]).
  do 7 (destruct r as [| ? r]; [reflexivity |]).
  reflexivity.
Qed.

Lemma plane_of_row_short (r : row) :
  length r < 4 -> plane_of_row r = Raise IndexError.
Proof.
  intros H.
  do 4 (destruct r as [| ? r]; [reflexivity |]).
  simpl in H. lia.
Qed.

Lemma entry_of_icao (r : row) : entry_of r !! "icao" = Some (nth 0 r "").
Proof. reflexivity. Qed.

Lemma load_planefile_loop_cons (r : row) (reader : list row)
    (planedb : gmap string (gmap string string)) :
  load_planefile_loop (r :: reader) planedb
  = if loadable r
    then load_planefile_loop reader
           (if comment_row r then planedb
            else <[nth 0 r "" := entry_of r]> planedb)
    else Raise IndexError.
Proof.
  destruct r as [| f rest]; [reflexivity |].
  cbn [load_planefile_loop loadable].
  unfold plane_row_skipped, comment_row. cbn [item lookup list_lookup bind nth].
  rewrite orb_false_r.
  destruct (PyStr.startswith f "#") eqn:Hc; cbn [orb]; [reflexivity |].
  destruct (Nat.leb_spec 4 (length (f :: rest))) as [Hl | Hl].
  - rewrite (plane_of_row_long _ Hl). cbn [bind].
    unfold getitem. rewrite entry_of_icao. reflexivity.
  - now rewrite (plane_of_row_short _ Hl).
Qed.

Lemma load_planefile_loop_ok (reader : list row)
    (planedb : gmap string (gmap string string)) :
  forallb loadable reader = true ->
  load_planefile_loop reader planedb = Ok (registry_of reader planedb).
Proof.
  revert planedb. induction reader as [| r reader IH]; intros planedb H.
  - reflexivity.
  - cbn [forallb] in H. apply andb_true_iff in H as [Hr H].
    rewrite load_planefile_loop_cons, Hr. cbn [registry_of].
    destruct (comment_row r); now apply IH.
Qed.

Lemma load_planefile_loop_fail (reader : list row)
    (planedb : gmap string (gmap string string)) :
  forallb loadable reader = false ->
  load_planefile_loop reader planedb = Raise IndexError.
Proof.
  revert planedb. induction reader as [| r reader IH]; intros planedb H.
  - discriminate.
  - cbn [forallb] in H. rewrite load_planefile_loop_cons.
    destruct (loadable r); [| reflexivity].
    apply IH. exact H.
Qed.

Lemma load_planefile_inv (reader : list row)
    (planedb : gmap string (gmap string string)) :
  load_planefile reader = Ok planedb ->
  forallb loadable reader = true /\ planedb = registry_of reader ∅.
Proof.
  unfold load_planefile. intros H.
  destruct (forallb loadable reader) eqn:E.
  - rewrite (load_planefile_loop_ok _ _ E) in H. now injection H as <-.
  - rewrite (load_planefile_loop_fail _ _ E) in H. discriminate.
Qed.

Lemma load_planefile_ok (reader : list row) :
  forallb loadable reader = true ->
  load_planefile reader = Ok (registry_of reader ∅).
Proof. apply load_planefile_loop_ok. Qed.

Lemma registry_of_one (r : row) :
  comment_row r = false ->
  registry_of [r] ∅ = {[ nth 0 r "" := entry_of r ]}.
Proof.
  intros H. cbn [registry_of]. rewrite H. apply insert_empty.
Qed.

Lemma registry_of_app (before after : list row)
    (planedb : gmap string (gmap string string)) :
  registry_of (before ++ after) planedb
  = registry_of after (registry_of before planedb).
Proof.
  revert planedb. induction before as [| r before IH]; intros planedb.
  - reflexivity.
  - cbn [app registry_of]. destruct (comment_row r); apply IH.
Qed.

(** Rows with other keys leave the entry under [k] alone. *)
Lemma registry_of_other (reader : list row)
    (planedb : gmap string (gmap string string)) (k : string) :
  (forall r, In r reader -> comment_row r = false -> nth 0 r "" <> k) ->
  registry_of reader planedb !! k = planedb !! k.
Proof.
  revert planedb. induction reader as [| r reader IH]; intros planedb H.
  - reflexivity.
  - cbn [registry_of]. destruct (comment_row r) eqn:Hc.
    + apply IH. intros r' Hr'. apply H. now right.
    + rewrite IH by (intros r' Hr'; apply H; now right).
      apply lookup_insert_ne. apply H; [now left | exact Hc].
Qed.

(** Whatever is in the table was put there by a row, under its raw first
    field. *)
Lemma registry_of_stored (reader : list row)
    (planedb : gmap string (gmap string string)) (k : string)
    (e : gmap string string) :
  registry_of reader planedb !! k = Some e ->
  planedb !! k = Some e \/
  exists r, In r reader /\ comment_row r = false /\ nth 0 r "" = k /\
            e = entry_of r.
Proof.
  revert planedb. induction reader as [| r reader IH]; intros planedb H.
  - now left.
  - cbn [registry_of] in H. destruct (comment_row r) eqn:Hc.
    + destruct (IH _ H) as [H' | (r' & Hin & H')]; [now left |].
      right. exists r'. split; [now right | exact H'].
    + destruct (IH _ H) as [H' | (r' & Hin & H')].
      * destruct (decide (nth 0 r "" = k)) as [Hk | Hk].
        -- rewrite Hk, lookup_insert_eq in H'. injection H' as <-.
           right. exists r. split; [now left | easy].
        -- rewrite lookup_insert_ne in H' by exact Hk. now left.
      * right. exists r'. split; [now right | exact H'].
Qed.

(** A key of the table stays one, and every row that is not a comment
    leaves its raw first field as a key. *)
Lemma registry_of_keeps (reader : list row)
    (planedb : gmap string (gmap string string)) (k : string) :
  is_Some (planedb !! k) -> is_Some (registry_of reader planedb !! k).
Proof.
  revert planedb. induction reader as [| r reader IH]; intros planedb H.
  - exact H.
  - cbn [registry_of]. destruct (comment_row r); apply IH; [exact H |].
    destruct (decide (nth 0 r "" = k)) as [-> | Hk].
    + rewrite lookup_insert_eq. now eexists.
    + now rewrite lookup_insert_ne.
Qed.

Lemma registry_of_has_key (reader : list row)
    (planedb : gmap string (gmap string string)) (r : row) :
  In r reader -> comment_row r = false ->
  is_Some (registry_of reader planedb !! nth 0 r "").
Proof.
  revert planedb. induction reader as [| r' reader IH]; intros planedb Hin Hc.
  - destruct Hin.
  - cbn [registry_of]. destruct Hin as [-> | Hin].
    + rewrite Hc. apply registry_of_keeps.
      rewrite lookup_insert_eq. now eexists.
    + destruct (comment_row r'); now apply IH.
Qed.

Lemma get_empty (k : string) : get ∅ k "" = "".
Proof. unfold get. now rewrite lookup_empty. Qed.


(** Every loaded record comes from a valid row, so its address is
    stripped. *)
Lemma loaded_icao_trimmed (reader : list row) (alerts : list Alert)
    (a : Alert) :
  load_alerts reader = Ok alerts -> In a alerts -> PyStr.trimmed (icao a).
Proof.
  intros H Hin. rewrite load_alerts_spec in H. injection H as <-.
  apply in_map_iff in Hin as (r & <- & _). apply strip_trimmed.
Qed.

(** A file with a blank line does not load. *)
Lemma load_planefile_blank_line (reader : list row) :
  In [] reader -> load_planefile reader = Raise IndexError.
Proof.
  intros H. apply load_planefile_loop_fail.
  apply not_true_is_false. intros Hall.
  rewrite forallb_forall in Hall. specialize (Hall _ H). discriminate.
Qed.

(** ** The notification *)

Lemma guarded_field (d : gmap string string) (k : string) (e : Embed)
    (f : string -> Embed) :
  (if negb (String.eqb (get d k "") "")
   then let! v := getitem d k in Ok (f v)
   else Ok e)
  = Ok (if negb (String.eqb (get d k "") "") then f (get d k "") else e).
Proof.
  unfold get, getitem. destruct (d !! k) as [v |]; simpl.
  - now destruct (String.eqb v "").
  - reflexivity.
Qed.

(** One guard [if v != "":] decided: both ways, with the test reduced. *)
Ltac split_guard v :=
  destruct (String.eqb v ""); cbn [negb]; cbv iota.

(** Attaching the fields never raises: it adds the pairs of the places
    that are included, in the order of the places. *)
Lemma attach_fields_spec (config : Config) (dbinfo : gmap string string)
    (plane : Alert) (e : Embed) :
  attach_fields config dbinfo plane
    (flightaware_link (icao plane) (tail_num plane)) e
  = Ok (mkEmbed (title e) (description e) (color e)
          (fields e
           ++ map (rendered config dbinfo plane)
                (List.filter (included config dbinfo plane) slots))%list).
Proof.
  destruct e as [t d k fs].
  unfold attach_fields, slots. cbv zeta.
  cbn [List.filter included underlying].
  repeat (rewrite guarded_field; cbn [bind]).
  split_guard (get dbinfo "link" "");
    split_guard (get dbinfo "tag3" "");
    split_guard (get dbinfo "tag2" "");
    split_guard (get dbinfo "tag1" "");
    split_guard (get dbinfo "category" "");
    split_guard (callsign plane);
    split_guard (get config "DISCORD_FEEDER_NAME" "");
    cbv [embed.field title description color fields];
    cbn [map rendered underlying]; rewrite <- ?app_assoc; reflexivity.
Qed.

(** Building an embed never raises, and gives the closed form. *)
Lemma build_alert_embed_spec (config : Config)
    (planedb : gmap string (gmap string string)) (plane : Alert) :
  build_alert_embed config planedb plane
  = Ok (embed_of config (get_plane_info planedb (icao plane)) plane).
Proof.
  unfold build_alert_embed. cbv zeta.
  destruct (is_emergency (squawk plane)) eqn:He; cbv iota;
    rewrite attach_fields_spec; unfold embed_of, embed.build;
    cbn [title description color fields app]; rewrite He;
    unfold operated_by, tracking_line;
    (destruct (String.eqb (owner plane) ""); reflexivity).
Qed.

Lemma prefix_append (p s : string) : String.prefix p (p +:+ s) = true.
Proof.
  induction p as [| c p IH]; [now destruct s |].
  rewrite append_cons. cbn [String.prefix].
  destruct (ascii_dec c c) as [_ | Hne]; [exact IH | now destruct Hne].
Qed.

(** ** The processing loop *)

Section DeliveryFacts.

Context {World : Type}.
Variable webhook : World -> string -> string -> Embed -> World * result bool.
Variable config : Config.

Hypothesis webhook_returns :
  forall w urls media e, exists accepted,
    (webhook w urls media e).2 = Ok accepted.
Hypothesis has_webhooks : is_Some (config !! "PA_DISCORD_WEBHOOKS").
Hypothesis has_media : is_Some (config !! "DISCORD_MEDIA").

Lemma send_returns (e : Embed) (st : Run) :
  exists w, send webhook config "PA" e st = (mkRun w (handed st ++ [e]), Ok tt).
Proof.
  destruct has_webhooks as [urls Hu]. destruct has_media as [media Hm].
  unfold send, getitem.
  change (upper "PA" +:+ "_DISCORD_WEBHOOKS") with "PA_DISCORD_WEBHOOKS".
  rewrite Hu, Hm.
  destruct (webhook_returns (world st) urls media e) as [accepted Ha].
  destruct (webhook (world st) urls media e) as [w r]. simpl in Ha. subst r.
  now exists w.
Qed.

Lemma process_alerts_all (planedb : gmap string (gmap string string))
    (alerts : list Alert) (st : Run) :
  exists st',
    process_alerts webhook config planedb alerts st = (st', Ok tt) /\
    handed st'
    = (handed st
       ++ map (fun plane =>
                 embed_of config (get_plane_info planedb (icao plane)) plane)
            alerts)%list.
Proof.
  revert st. induction alerts as [| plane alerts IH]; intros st.
  - exists st. cbn [process_alerts map]. now rewrite app_nil_r.
  - cbn [process_alerts]. rewrite build_alert_embed_spec.
    destruct (send_returns
                (embed_of config (get_plane_info planedb (icao plane)) plane)
                st) as [w Hs].
    rewrite Hs.
    destruct (IH (mkRun w
                    (handed st
                     ++ [embed_of config (get_plane_info planedb (icao plane))
                           plane]))) as (st' & Hp & Hh).
    exists st'. split; [exact Hp |].
    rewrite Hh. cbn [handed map]. now rewrite <- app_assoc.
Qed.

End DeliveryFacts.

(** One turn of the loop, with the two settings of [send] present: the
    embed of the alert goes to the webhook in the world reached so far. *)
Lemma process_alerts_cons {World : Type}
    (webhook : World -> string -> string -> Embed -> World * result bool)
    (config : Config) (planedb : gmap string (gmap string string))
    (urls media : string) (plane : Alert) (alerts : list Alert) (st : Run) :
  config !! "PA_DISCORD_WEBHOOKS" = Some urls ->
  config !! "DISCORD_MEDIA" = Some media ->
  process_alerts webhook config planedb (plane :: alerts) st
  = match webhook (world st) urls media
            (embed_of config (get_plane_info planedb (icao plane)) plane) with
    | (w, Ok _) =>
        process_alerts webhook config planedb alerts
          (mkRun w
             (handed st
              ++ [embed_of config (get_plane_info planedb (icao plane))
                    plane]))
    | (w, Raise x) =>
        (mkRun w
           (handed st
            ++ [embed_of config (get_plane_info planedb (icao plane)) plane]),
         Raise x)
    end.
Proof.
  intros Hu Hm. cbn [process_alerts]. rewrite build_alert_embed_spec.
  unfold send, getitem.
  change (upper "PA" +:+ "_DISCORD_WEBHOOKS") with "PA_DISCORD_WEBHOOKS".
  rewrite Hu, Hm.
  now destruct (webhook (world st) urls media _) as [w [accepted | x]].
Qed.

(** After a first part that ended normally the loop goes on with what
    follows, from the state reached. *)
Lemma process_alerts_after {World : Type}
    (webhook : World -> string -> string -> Embed -> World * result bool)
    (config : Config) (planedb : gmap string (gmap string string))
    (before rest : list Alert) (st st1 : Run) :
  process_alerts webhook config planedb before st = (st1, Ok tt) ->
  process_alerts webhook config planedb (before ++ rest) st
  = process_alerts webhook config planedb rest st1.
Proof.
  revert st. induction before as [| plane before IH]; intros st H.
  - now injection H as ->.
  - cbn [app process_alerts] in *.
    destruct (build_alert_embed config planedb plane) as [e | x];
      [| discriminate].
    destruct (send webhook config "PA" e st) as [st' [[] | x]];
      [now apply IH | discriminate].
Qed.

(** A run that ended normally handed over the embed of every alert. *)
Lemma process_alerts_handed {World : Type}
    (webhook : World -> string -> string -> Embed -> World * result bool)
    (config : Config) (planedb : gmap string (gmap string string))
    (alerts : list Alert) (st st' : Run) :
  process_alerts webhook config planedb alerts st = (st', Ok tt) ->
  handed st'
  = (handed st
     ++ map (fun plane =>
               embed_of config (get_plane_info planedb (icao plane)) plane)
          alerts)%list.
Proof.
  revert st. induction alerts as [| plane alerts IH]; intros st H.
  - injection H as ->. cbn [map]. now rewrite app_nil_r.
  - cbn [process_alerts] in H. rewrite build_alert_embed_spec in H.
    unfold send in H.
    destruct (getitem config (upper "PA" +:+ "_DISCORD_WEBHOOKS"))
      as [urls | x]; [| discriminate].
    destruct (getitem config "DISCORD_MEDIA") as [media | x];
      [| discriminate].
    destruct (webhook (world st) urls media _) as [w [accepted | x]];
      [| discriminate].
    rewrite (IH _ H). cbn [handed map]. now rewrite <- app_assoc.
Qed.

(** X1: whatever the webhook does, what has been handed over is a first
    part of the embeds of the alerts, in file order; an exception cuts the
    run short and never reorders or skips an alert. *)
Lemma process_alerts_in_file_order {World : Type}
    (webhook : World -> string -> string -> Embed -> World * result bool)
    (config : Config) (planedb : gmap string (gmap string string))
    (alerts : list Alert) (st : Run) :
  exists n,
    handed (process_alerts webhook config planedb alerts st).1
    = (handed st
       ++ firstn n
            (map (fun plane =>
                    embed_of config (get_plane_info planedb (icao plane)) plane)
               alerts))%list.
Proof.
  revert st. induction alerts as [| plane alerts IH]; intros st.
  - exists 0. simpl. now rewrite app_nil_r.
  - cbn [process_alerts]. rewrite build_alert_embed_spec. unfold send.
    destruct (getitem config (upper "PA" +:+ "_DISCORD_WEBHOOKS"))
      as [urls | x]; [| exists 0; simpl; now rewrite app_nil_r].
    destruct (getitem config "DISCORD_MEDIA") as [media | x];
      [| exists 0; simpl; now rewrite app_nil_r].
    destruct (webhook (world st) urls media _) as [w [accepted | x]].
    + destruct (IH (mkRun w
                      (handed st
                       ++ [embed_of config
                             (get_plane_info planedb (icao plane)) plane])))
        as [n Hn].
      exists (S n). rewrite Hn. cbn [handed map firstn].
      now rewrite <- app_assoc.
    + exists 1. reflexivity.
Qed.

(** ** The scenario of the specification, and the stale copy *)

Example scenario_routine :
  build_alert_embed Sample.config (registry_of [Sample.ref_row] ∅)
    (Sample.alert "N426NA" "NASA" "1200")
  = Ok {| title := "Plane Alert - Lockheed P-3B Orion";
          description :=
            "Operated by **NASA**" +:+ nl
              +:+ "[Track on ADS-B Exchange](https://adsbexchange.com/x)";
          color := 0xf2e718;
          fields :=
            [("ICAO", "A51316");
             ("Tail Number",
              "[N426NA](https://flightaware.com/live/modes/A51316/ident/N426NA/redirect)");
             ("Callsign", "NASA1");
             ("Category", "Distinctive");
             ("Tag", "Sce To Aux");
             ("Tag", "Airborne Science");
             ("Tag", "Wallops Flight Facility");
             ("Link", "[Learn More](https://nasa.gov)")] |}.
Proof. vm_compute. reflexivity. Qed.

Example scenario_emergency :
  (let! e := build_alert_embed Sample.config (registry_of [Sample.ref_row] ∅)
               (Sample.alert "N426NA" "NASA" "7500") in
   Ok (title e, color e))
  = Ok ("Air Emergency! N426NA squawked 7500", 0xff0000%Z).
Proof. vm_compute. reflexivity. Qed.

Example legacy_link_keeps_brackets :
  Legacy.flightaware_link " [A1B2C3] " "[N123AB]"
  = "https://flightaware.com/live/modes/ [A1B2C3] /ident/[N123AB]]/redirect".
Proof. reflexivity. Qed.

Example legacy_short_row_raises :
  load_planefile [Sample.ref_row_again]
  = Ok {[ "A51316" := entry_of Sample.ref_row_again ]} /\
  Legacy.load_planefile [Sample.ref_row_again] = Raise IndexError.
Proof.
  split; [| reflexivity].
  rewrite load_planefile_ok by reflexivity.
  now rewrite registry_of_one.
Qed.

(** * The claims *)

(** ** Notification builder *)

(** C1, as the code has it: the embed is always built, and its label/value
    pairs are the places Feeder, ICAO, Tail Number, Callsign, Category,
    Tag 1, Tag 2, Tag 3, Link in this order, each rendered as the code
    renders it, with ICAO and Tail Number always present and each of the
    other places present exactly when its value is not empty. *)
Theorem payload_fields_in_fixed_order (config : Config)
    (planedb : gmap string (gmap string string)) (plane : Alert) :
  let dbinfo := get_plane_info planedb (icao plane) in
  exists e,
    build_alert_embed config planedb plane = Ok e /\
    fields e
    = map (rendered config dbinfo plane)
        (List.filter (included config dbinfo plane) slots) /\
    included config dbinfo plane ICAO = true /\
    included config dbinfo plane TailNumber = true /\
    forall s, s <> ICAO -> s <> TailNumber ->
      included config dbinfo plane s
      = negb (String.eqb (underlying config dbinfo plane s) "").
Proof.
  intros dbinfo. exists (embed_of config dbinfo plane).
  split; [apply build_alert_embed_spec |].
  split; [reflexivity |].
  split; [reflexivity |].
  split; [reflexivity |].
  intros s H1 H2. destruct s; try reflexivity; congruence.
Qed.

(** C1, as stated, fails: a pair is appended for a place whose value is
    empty.  The alert loaded from a row without a tail number still gets
    its Tail Number pair. *)
Lemma payload_pair_for_empty_tail_number :
  load_alerts [Sample.alert_row "" "NASA" "1200"]
  = Ok [Sample.alert "" "NASA" "1200"] /\
  underlying Sample.config ∅ (Sample.alert "" "NASA" "1200") TailNumber = "" /\
  exists e,
    build_alert_embed Sample.config ∅ (Sample.alert "" "NASA" "1200") = Ok e /\
    fields e
    = [("ICAO", "A51316");
       ("Tail Number",
        "[](https://flightaware.com/live/modes/A51316/ident//redirect)");
       ("Callsign", "NASA1")].
Proof.
  split; [reflexivity |]. split; [reflexivity |].
  eexists. split; [apply build_alert_embed_spec |].
  vm_compute. reflexivity.
Qed.

(** C2: a squawk is an emergency exactly when it is one of the strings
    7700, 7600, 7500 (so 1200 and the empty string are not); the title and
    the colour of the embed follow this one test: the emergency title
    naming tail number and squawk with pure red, or else the routine title
    naming the plane description with amber. *)
Theorem emergency_title_and_color (config : Config)
    (planedb : gmap string (gmap string string)) (plane : Alert) :
  (is_emergency (squawk plane) = true <->
   squawk plane = "7700" \/ squawk plane = "7600" \/ squawk plane = "7500") /\
  is_emergency "7700" = true /\ is_emergency "7600" = true /\
  is_emergency "7500" = true /\
  is_emergency "1200" = false /\ is_emergency "" = false /\
  exists e,
    build_alert_embed config planedb plane = Ok e /\
    (title e, color e)
    = if is_emergency (squawk plane)
      then ("Air Emergency! " +:+ tail_num plane +:+ " squawked "
              +:+ squawk plane,
            rgb 255 0 0)
      else ("Plane Alert - " +:+ plane_desc plane, rgb 242 231 24).
Proof.
  split.
  { unfold is_emergency. cbn [existsb]. rewrite !orb_true_iff.
    rewrite !String.eqb_eq. intuition discriminate. }
  do 5 (split; [reflexivity |]).
  eexists. split; [apply build_alert_embed_spec |].
  cbn [embed_of title color]. now destruct (is_emergency (squawk plane)).
Qed.

(** C6, as the code has it: the description is the "Operated by" clause
    when the owner is not empty, and nothing when it is, followed in both
    cases by a line feed and the tracking line; it starts with the clause
    exactly when the owner is not empty. *)
Theorem description_lines (config : Config)
    (planedb : gmap string (gmap string string)) (plane : Alert) :
  exists e,
    build_alert_embed config planedb plane = Ok e /\
    description e
    = (if String.eqb (owner plane) "" then "" else operated_by plane)
        +:+ nl +:+ tracking_line plane /\
    PyStr.startswith (description e) "Operated by **"
    = negb (String.eqb (owner plane) "").
Proof.
  eexists. split; [apply build_alert_embed_spec |].
  split; [reflexivity |].
  cbn [embed_of description]. unfold PyStr.startswith.
  destruct (String.eqb (owner plane) ""); simpl.
  - reflexivity.
  - unfold operated_by. rewrite !append_assoc. apply prefix_append.
Qed.

(** C6, as stated, fails: with an empty owner the description is not the
    tracking line alone, it starts with a line feed. *)
Lemma description_leading_newline :
  owner (Sample.alert "N426NA" "" "1200") = "" /\
  exists e,
    build_alert_embed Sample.config ∅ (Sample.alert "N426NA" "" "1200") = Ok e /\
    description e
    = nl +:+ "[Track on ADS-B Exchange](https://adsbexchange.com/x)" /\
    description e <> tracking_line (Sample.alert "N426NA" "" "1200").
Proof.
  split; [reflexivity |].
  eexists. split; [apply build_alert_embed_spec |].
  split; [reflexivity |]. vm_compute. discriminate.
Qed.

(** ** Alert loader *)

(** C3: loading never raises; the rows left out are exactly those with
    fewer than ten fields or a first field starting with [#]; the records
    returned are those of the remaining rows, one each and in file order,
    so that there are as many records as valid rows. *)
Theorem load_alerts_keeps_valid_rows (reader : list row) :
  (forall r, valid_row r = false <-> rejected r) /\
  exists alerts,
    load_alerts reader = Ok alerts /\
    alerts = map record_of (List.filter valid_row reader) /\
    length alerts = length (List.filter valid_row reader).
Proof.
  split; [apply valid_row_rejected |].
  eexists. split; [apply load_alerts_spec |].
  split; [reflexivity | apply length_map].
Qed.

(** C7, as the code has it: for a row of ten fields or more that is not a
    comment, the record loaded has [icao], [tail_num], [owner] and
    [callsign] stripped of surrounding white space, and [plane_desc],
    [date], [time], [lat], [long], [adsbx_url] and [squawk] as they stand
    in the row, the squawk being empty when the row has no eleventh
    field. *)
Theorem load_alerts_trims_four_fields (reader : list row)
    (f0 f1 f2 f3 f4 f5 f6 f7 f8 f9 : string) (rest : list string) :
  In (f0 :: f1 :: f2 :: f3 :: f4 :: f5 :: f6 :: f7 :: f8 :: f9 :: rest)
     reader ->
  PyStr.startswith f0 "#" = false ->
  exists alerts,
    load_alerts reader = Ok alerts /\
    In {| icao := PyStr.strip f0;
          tail_num := PyStr.strip f1;
          owner := PyStr.strip f2;
          plane_desc := f3;
          date := f4;
          time := f5;
          lat := f6;
          long := f7;
          callsign := PyStr.strip f8;
          adsbx_url := f9;
          squawk := hd "" rest |} alerts.
Proof.
  intros Hin Hc. eexists. split; [apply load_alerts_spec |].
  apply in_map_iff.
  exists (f0 :: f1 :: f2 :: f3 :: f4 :: f5 :: f6 :: f7 :: f8 :: f9 :: rest).
  split.
  - destruct rest; reflexivity.
  - apply List.filter_In. split; [exact Hin |].
    unfold valid_row. cbn [nth]. rewrite Hc. reflexivity.
Qed.

Lemma load_alerts_trims_four_fields_witness :
  exists alerts,
    load_alerts [["# ICAO"; "TailNr"];
                 [" A51316 "; " N426NA"; "NASA "; " Lockheed P-3B Orion ";
                  " 2022-01-01"; "12:00:00 "; " 10.0"; "-70.0 "; " NASA1 ";
                  " https://adsbexchange.com/x "; " 7700 "]]
    = Ok alerts /\
    In {| icao := PyStr.strip " A51316 ";
          tail_num := PyStr.strip " N426NA";
          owner := PyStr.strip "NASA ";
          plane_desc := " Lockheed P-3B Orion ";
          date := " 2022-01-01";
          time := "12:00:00 ";
          lat := " 10.0";
          long := "-70.0 ";
          callsign := PyStr.strip " NASA1 ";
          adsbx_url := " https://adsbexchange.com/x ";
          squawk := hd "" [" 7700 "] |} alerts.
Proof.
  apply (load_alerts_trims_four_fields _ " A51316 " " N426NA" "NASA "
           " Lockheed P-3B Orion " " 2022-01-01" "12:00:00 " " 10.0" "-70.0 "
           " NASA1 " " https://adsbexchange.com/x " [" 7700 "]).
  - right. left. reflexivity.
  - reflexivity.
Defined.

(** C7, as stated, fails: the squawk is a string field outside the six
    listed, and it is not trimmed. *)
Lemma squawk_not_trimmed :
  exists a,
    load_alerts [Sample.alert_row "N426NA" "NASA" " 7700 "] = Ok [a] /\
    squawk a = " 7700 " /\
    squawk a <> PyStr.strip " 7700 ".
Proof.
  eexists. split; [reflexivity |]. split; [reflexivity |].
  vm_compute. discriminate.
Qed.

(** ** Tracking link *)

(** C5: the link is the fixed address with the two identifiers put in
    after each has lost its surrounding white space and then every ["["]
    and ["]"]; no bracket is left anywhere in the link; and for the
    identifiers [" [A1B2C3] "] and ["[N123AB]"] the link holds [A1B2C3] and
    [N123AB] and neither a bracket nor white space. *)
Theorem flightaware_link_strips_identifiers (icao tail_num : string) :
  (exists i t,
     stripped_of icao i /\ stripped_of tail_num t /\
     flightaware_link icao tail_num
     = "https://flightaware.com/live/modes/" +:+ without_brackets i
         +:+ "/ident/" +:+ without_brackets t +:+ "/redirect") /\
  PyStr.contains "[" (flightaware_link icao tail_num) = false /\
  PyStr.contains "]" (flightaware_link icao tail_num) = false /\
  flightaware_link " [A1B2C3] " "[N123AB]"
  = "https://flightaware.com/live/modes/A1B2C3/ident/N123AB/redirect" /\
  PyStr.has_space (flightaware_link " [A1B2C3] " "[N123AB]") = false.
Proof.
  split.
  { exists (PyStr.strip icao), (PyStr.strip tail_num).
    split; [apply strip_stripped_of |]. split; [apply strip_stripped_of |].
    apply flightaware_link_shape. }
  rewrite flightaware_link_shape, !contains_app.
  destruct (without_brackets_clean (PyStr.strip icao)) as [Hi1 Hi2].
  destruct (without_brackets_clean (PyStr.strip tail_num)) as [Ht1 Ht2].
  rewrite Hi1, Hi2, Ht1, Ht2.
  repeat split; reflexivity.
Qed.

(** ** Reference registry *)

(** C4, as the code has it: once the file has loaded, looking up the first
    field of a row that is not a comment and that no later such row
    repeats gives the entry of that row, column by column; looking up an
    address that no such row carries gives the empty dictionary, every
    field of which reads as the empty string. *)
Theorem registry_lookup_last_row_wins (reader : list row)
    (planedb : gmap string (gmap string string)) :
  load_planefile reader = Ok planedb ->
  (forall before r after,
     reader = (before ++ r :: after)%list ->
     comment_row r = false ->
     (forall r', In r' after -> comment_row r' = false ->
                 nth 0 r' "" <> nth 0 r "") ->
     get_plane_info planedb (nth 0 r "") = entry_of r) /\
  (forall icao,
     (forall r, In r reader -> comment_row r = false -> nth 0 r "" <> icao) ->
     get_plane_info planedb icao = ∅ /\
     forall k, get (get_plane_info planedb icao) k "" = "").
Proof.
  intros Hload. apply load_planefile_inv in Hload as [_ ->]. split.
  - intros before r after -> Hc Hlater.
    unfold get_plane_info.
    rewrite registry_of_app. cbn [registry_of]. rewrite Hc.
    rewrite (registry_of_other after _ _ Hlater), lookup_insert_eq.
    reflexivity.
  - intros k Hk.
    assert (get_plane_info (registry_of reader ∅) k = ∅) as ->.
    { unfold get_plane_info.
      now rewrite (registry_of_other reader _ _ Hk), lookup_empty. }
    split; [reflexivity | apply get_empty].
Qed.

Lemma registry_lookup_last_row_wins_witness :
  get_plane_info (registry_of [Sample.ref_row_again; Sample.ref_row] ∅)
    "A51316"
  = entry_of Sample.ref_row /\
  get_plane_info (registry_of [Sample.ref_row_again; Sample.ref_row] ∅)
    "ABCDEF"
  = ∅.
Proof.
  destruct (registry_lookup_last_row_wins
              [Sample.ref_row_again; Sample.ref_row]
              (registry_of [Sample.ref_row_again; Sample.ref_row] ∅))
    as [Hhit Hmiss].
  - apply load_planefile_ok. reflexivity.
  - split.
    + apply (Hhit [Sample.ref_row_again] Sample.ref_row []).
      * reflexivity.
      * reflexivity.
      * intros r' [].
    + apply Hmiss. intros r [<- | [<- | []]] _; discriminate.
Defined.

(** C4, as stated, fails when the file repeats an address: the later row
    wins, and the lookup does not match the earlier row. *)
Lemma registry_lookup_duplicate_icao :
  load_planefile [Sample.ref_row; Sample.ref_row_again]
  = Ok (registry_of [Sample.ref_row; Sample.ref_row_again] ∅) /\
  comment_row Sample.ref_row = false /\
  get_plane_info (registry_of [Sample.ref_row; Sample.ref_row_again] ∅)
    (nth 0 Sample.ref_row "")
  = entry_of Sample.ref_row_again /\
  get (entry_of Sample.ref_row_again) "tail_num" "" = "N999ZZ" /\
  get (entry_of Sample.ref_row) "tail_num" "" = "N426NA" /\
  get_plane_info (registry_of [Sample.ref_row; Sample.ref_row_again] ∅)
    (nth 0 Sample.ref_row "")
  <> entry_of Sample.ref_row.
Proof.
  assert (Hfound :
            get_plane_info
              (registry_of [Sample.ref_row; Sample.ref_row_again] ∅)
              (nth 0 Sample.ref_row "")
            = entry_of Sample.ref_row_again).
  { unfold get_plane_info.
    change (registry_of [Sample.ref_row; Sample.ref_row_again] ∅)
      with (<["A51316" := entry_of Sample.ref_row_again]>
              (<["A51316" := entry_of Sample.ref_row]>
                 (∅ : gmap string (gmap string string)))).
    change (nth 0 Sample.ref_row "") with "A51316".
    now rewrite lookup_insert_eq. }
  split; [apply load_planefile_ok; reflexivity |].
  split; [reflexivity |]. split; [exact Hfound |].
  split; [reflexivity |]. split; [reflexivity |].
  rewrite Hfound. intros H.
  apply (f_equal (fun d => get d "tail_num" "")) in H.
  discriminate H.
Qed.

(** C8: the code at the failing input.  The registry file made of the
    scenario's row loads; the same file with a blank line after it raises
    [IndexError], in the current copy of the library and in the stale
    one. *)
Theorem load_planefile_blank_line_raises :
  load_planefile [Sample.ref_row]
  = Ok {[ "A51316" := entry_of Sample.ref_row ]} /\
  load_planefile [Sample.ref_row; []] = Raise IndexError /\
  Legacy.load_planefile [Sample.ref_row; []] = Raise IndexError.
Proof.
  split.
  { rewrite load_planefile_ok by reflexivity. now rewrite registry_of_one. }
  split; [apply load_planefile_blank_line; right; now left | reflexivity].
Qed.

(** C10: every row that is not a comment has its first field, as it
    stands, as a key of the table, every key of the table is such a field,
    and the entry repeats it; the address of a loaded alert is stripped; so
    the entry found for a loaded alert is never that of a row whose first
    field carries white space at either end, or differs from the alert's
    address in any way, letter case included. *)
Theorem lookup_is_exact_match (ref_reader alert_reader : list row)
    (planedb : gmap string (gmap string string)) (alerts : list Alert) :
  load_planefile ref_reader = Ok planedb ->
  load_alerts alert_reader = Ok alerts ->
  (forall r, In r ref_reader -> comment_row r = false ->
             is_Some (planedb !! nth 0 r "")) /\
  (forall k e,
     planedb !! k = Some e ->
     e !! "icao" = Some k /\
     exists r, In r ref_reader /\ comment_row r = false /\ nth 0 r "" = k /\
               e = entry_of r) /\
  (forall a, In a alerts -> PyStr.trimmed (icao a)) /\
  (forall a r,
     In a alerts -> In r ref_reader ->
     ~ PyStr.trimmed (nth 0 r "") \/ nth 0 r "" <> icao a ->
     get_plane_info planedb (icao a) <> entry_of r).
Proof.
  intros Hload Halerts.
  apply load_planefile_inv in Hload as [_ ->].
  assert (Hstored : forall k e,
             registry_of ref_reader ∅ !! k = Some e ->
             e !! "icao" = Some k /\
             exists r, In r ref_reader /\ comment_row r = false /\
                       nth 0 r "" = k /\ e = entry_of r).
  { intros k e Hk. apply registry_of_stored in Hk as [Hk | (r & Hr)].
    - rewrite lookup_empty in Hk. discriminate.
    - split; [| now exists r].
      destruct Hr as (_ & _ & <- & ->). apply entry_of_icao. }
  split; [intros r Hr Hc; now apply registry_of_has_key |].
  split; [exact Hstored |].
  split; [intros a Ha; exact (loaded_icao_trimmed _ _ _ Halerts Ha) |].
  intros a r Ha Hr Hdiff Heq.
  assert (Hkey : nth 0 r "" = icao a).
  { unfold get_plane_info in Heq.
    destruct (registry_of ref_reader ∅ !! icao a) as [e |] eqn:He;
      simpl in Heq.
    - apply Hstored in He as [He _]. rewrite Heq, entry_of_icao in He.
      now injection He.
    - apply (f_equal (fun d => d !! "icao")) in Heq.
      rewrite lookup_empty, entry_of_icao in Heq. discriminate. }
  destruct Hdiff as [Hsp | Hne]; [| exact (Hne Hkey)].
  apply Hsp. rewrite Hkey. exact (loaded_icao_trimmed _ _ _ Halerts Ha).
Qed.

Lemma lookup_is_exact_match_witness :
  get_plane_info (registry_of [Sample.ref_row_padded] ∅)
    (icao (Sample.alert "N426NA" "NASA" "1200"))
  <> entry_of Sample.ref_row_padded.
Proof.
  destruct (lookup_is_exact_match
              [Sample.ref_row_padded]
              [Sample.alert_row "N426NA" "NASA" "1200"]
              (registry_of [Sample.ref_row_padded] ∅)
              [Sample.alert "N426NA" "NASA" "1200"])
    as (_ & _ & _ & Hnever).
  - apply load_planefile_ok. reflexivity.
  - reflexivity.
  - apply Hnever.
    + now left.
    + now left.
    + right. discriminate.
Defined.

(** ** Processing loop *)

(** C9, as the code has it, for every webhook.  With the two delivery
    settings present, the loop is a fold over the alerts in file order: an
    empty list ends normally at once; an alert is turned into its embed
    and handed to the webhook in the world reached so far, and what that
    call does decides alone how the loop goes on.  A call that returns,
    the message accepted or not, is followed by the rest of the alerts; a
    call that raises ends the loop with its exception, the embed of that
    alert being the last one handed over.  Hence a run that ends normally
    has handed over the embed of every alert, in file order; after a first
    part that ended normally a returning call passes the alerts that
    follow on to the loop, and a raising call leaves all of them
    unprocessed. *)
Theorem process_alerts_step_by_step {World : Type}
    (webhook : World -> string -> string -> Embed -> World * result bool)
    (config : Config) (planedb : gmap string (gmap string string))
    (urls media : string) :
  config !! "PA_DISCORD_WEBHOOKS" = Some urls ->
  config !! "DISCORD_MEDIA" = Some media ->
  let embed_for := fun plane : Alert =>
    embed_of config (get_plane_info planedb (icao plane)) plane in
  (forall st, process_alerts webhook config planedb [] st = (st, Ok tt)) /\
  (forall plane alerts st,
     process_alerts webhook config planedb (plane :: alerts) st
     = match webhook (world st) urls media (embed_for plane) with
       | (w, Ok accepted) =>
           process_alerts webhook config planedb alerts
             (mkRun w (handed st ++ [embed_for plane]))
       | (w, Raise x) => (mkRun w (handed st ++ [embed_for plane]), Raise x)
       end) /\
  (forall alerts st st',
     process_alerts webhook config planedb alerts st = (st', Ok tt) ->
     handed st' = (handed st ++ map embed_for alerts)%list) /\
  (forall before plane after st st1 w accepted,
     process_alerts webhook config planedb before st = (st1, Ok tt) ->
     webhook (world st1) urls media (embed_for plane) = (w, Ok accepted) ->
     process_alerts webhook config planedb (before ++ plane :: after) st
     = process_alerts webhook config planedb after
         (mkRun w (handed st ++ map embed_for before ++ [embed_for plane]))) /\
  (forall before plane after st st1 w x,
     process_alerts webhook config planedb before st = (st1, Ok tt) ->
     webhook (world st1) urls media (embed_for plane) = (w, Raise x) ->
     process_alerts webhook config planedb (before ++ plane :: after) st
     = (mkRun w (handed st ++ map embed_for before ++ [embed_for plane]),
        Raise x)).
Proof.
  intros Hu Hm embed_for.
  split; [reflexivity |].
  split; [intros plane alerts st; now apply process_alerts_cons |].
  split; [intros alerts st st'; apply process_alerts_handed |].
  split.
  - intros before plane after st st1 w accepted Hb Hw.
    rewrite (process_alerts_after _ _ _ _ _ _ _ Hb).
    rewrite (process_alerts_cons _ _ _ urls media) by assumption.
    fold (embed_for plane). rewrite Hw.
    rewrite (process_alerts_handed _ _ _ _ _ _ Hb).
    fold embed_for. now rewrite <- app_assoc.
  - intros before plane after st st1 w x Hb Hw.
    rewrite (process_alerts_after _ _ _ _ _ _ _ Hb).
    rewrite (process_alerts_cons _ _ _ urls media) by assumption.
    fold (embed_for plane). rewrite Hw.
    rewrite (process_alerts_handed _ _ _ _ _ _ Hb).
    fold embed_for. now rewrite <- app_assoc.
Qed.

Lemma process_alerts_step_by_step_witness :
  process_alerts (Sample.raising_at 1) Sample.config ∅
    ([Sample.alert "N426NA" "NASA" "1200"]
     ++ Sample.alert "N426NA" "NASA" "7500"
        :: [Sample.alert "N999ZZ" "Somebody Else" "1200"])
    (mkRun 0 [])
  = (mkRun 2
       ([]
        ++ map (fun plane =>
                  embed_of Sample.config (get_plane_info ∅ (icao plane)) plane)
             [Sample.alert "N426NA" "NASA" "1200"]
        ++ [embed_of Sample.config
              (get_plane_info ∅ (icao (Sample.alert "N426NA" "NASA" "7500")))
              (Sample.alert "N426NA" "NASA" "7500")]),
     Raise TransportError).
Proof.
  destruct (process_alerts_step_by_step (Sample.raising_at 1) Sample.config ∅
              "https://discord.example/hook" "")
    as (_ & _ & _ & _ & Hraise).
  - vm_compute. reflexivity.
  - vm_compute. reflexivity.
  - apply (Hraise [Sample.alert "N426NA" "NASA" "1200"]
             (Sample.alert "N426NA" "NASA" "7500")
             [Sample.alert "N999ZZ" "Somebody Else" "1200"]
             (mkRun 0 [])
             (mkRun 1 [embed_of Sample.config ∅
                         (Sample.alert "N426NA" "NASA" "1200")])).
    + vm_compute. reflexivity.
    + reflexivity.
Defined.

(** C9, as stated, fails: the loop has no handler, so when the webhook
    raises on the first alert the second one is never handed over. *)
Lemma process_alerts_stops_on_exception :
  process_alerts Sample.raising Sample.config ∅
    [Sample.alert "N426NA" "NASA" "1200"; Sample.alert "N426NA" "NASA" "7500"]
    (mkRun tt [])
  = (mkRun tt [embed_of Sample.config ∅ (Sample.alert "N426NA" "NASA" "1200")],
     Raise TransportError).
Proof. vm_compute. reflexivity. Qed.

(** * Further properties *)

(** ** The registry loader *)

Lemma loadable_false (r : row) :
  loadable r = false <-> r = [] \/ (comment_row r = false /\ length r < 4).
Proof.
  destruct r as [| f rest]; [now split; [left |] |].
  cbn [loadable]. rewrite orb_false_iff, Nat.leb_gt. split.
  - intros H. now right.
  - intros [H | H]; [discriminate | exact H].
Qed.

(** X2: [load_planefile] ends in one of two ways.  When every row is
    a comment or has four fields or more (and none is empty) it returns
    the table of the rows in file order; otherwise it raises [IndexError],
    and nothing else can be raised. *)
Theorem load_planefile_outcome (reader : list row) :
  (forall r, loadable r = false <->
             r = [] \/ (comment_row r = false /\ length r < 4)) /\
  load_planefile reader
  = if forallb loadable reader then Ok (registry_of reader ∅)
    else Raise IndexError.
Proof.
  split; [apply loadable_false |].
  destruct (forallb loadable reader) eqn:E.
  - now apply load_planefile_ok.
  - now apply load_planefile_loop_fail.
Qed.

Lemma registry_of_dom (reader : list row)
    (planedb : gmap string (gmap string string)) :
  dom (registry_of reader planedb)
  = dom planedb ∪ list_to_set (registry_keys reader).
Proof.
  revert planedb. induction reader as [| r reader IH]; intros planedb.
  - cbn. now rewrite union_empty_r_L.
  - cbn [registry_of]. unfold registry_keys. cbn [List.filter].
    destruct (comment_row r); cbn [negb map].
    + apply IH.
    + rewrite IH, dom_insert_L. fold (registry_keys reader).
      cbn [list_to_set]. apply set_eq. intros x.
      rewrite !elem_of_union. tauto.
Qed.

Lemma registry_of_size (reader : list row)
    (planedb : gmap string (gmap string string)) :
  size (registry_of reader planedb)
  <= size planedb + length (registry_keys reader).
Proof.
  revert planedb. induction reader as [| r reader IH]; intros planedb.
  - cbn. lia.
  - cbn [registry_of]. unfold registry_keys. cbn [List.filter].
    destruct (comment_row r); cbn [negb map length].
    + apply IH.
    + fold (registry_keys reader).
      etransitivity; [apply IH |].
      rewrite map_size_insert.
      destruct (planedb !! nth 0 r ""); cbn [id]; lia.
Qed.

(** X3: the keys of the loaded table are exactly the first fields of the
    rows that are not comments, so no key starts with [#]; and the table
    has at most as many entries as there are such rows. *)
Theorem load_planefile_keys (reader : list row)
    (planedb : gmap string (gmap string string)) :
  load_planefile reader = Ok planedb ->
  dom planedb = list_to_set (registry_keys reader) /\
  (forall k, k ∈ dom planedb -> PyStr.startswith k "#" = false) /\
  size planedb <= length (registry_keys reader).
Proof.
  intros H. apply load_planefile_inv in H as [_ ->].
  assert (Hdom : dom (registry_of reader ∅)
                 = list_to_set (registry_keys reader)).
  { now rewrite registry_of_dom, dom_empty_L, union_empty_l_L. }
  split; [exact Hdom |]. split.
  - intros k Hk. rewrite Hdom in Hk.
    apply elem_of_list_to_set, list_elem_of_In in Hk.
    unfold registry_keys in Hk.
    apply in_map_iff in Hk as (r & <- & Hr).
    apply List.filter_In in Hr as [_ Hr].
    now apply negb_true_iff in Hr.
  - pose proof (registry_of_size reader ∅) as Hs.
    now rewrite map_size_empty in Hs.
Qed.

Lemma load_planefile_keys_witness :
  dom (registry_of [["# ICAO"; "Tail"]; Sample.ref_row; Sample.ref_row_again] ∅)
  = list_to_set
      (registry_keys [["# ICAO"; "Tail"]; Sample.ref_row; Sample.ref_row_again]) /\
  size (registry_of [["# ICAO"; "Tail"]; Sample.ref_row; Sample.ref_row_again] ∅)
  <= 2.
Proof.
  destruct (load_planefile_keys
              [["# ICAO"; "Tail"]; Sample.ref_row; Sample.ref_row_again]
              (registry_of
                 [["# ICAO"; "Tail"]; Sample.ref_row; Sample.ref_row_again] ∅))
    as (Hdom & _ & Hsize).
  - apply load_planefile_ok. reflexivity.
  - split; [exact Hdom | exact Hsize].
Defined.

Lemma entry_of_dom (r : row) : dom (entry_of r) = plane_keys.
Proof.
  unfold entry_of, mkdict, plane_keys. cbn [fold_left fst snd list_to_set].
  rewrite !dom_insert_L, dom_empty_L. apply set_eq. intros x.
  rewrite !elem_of_union. tauto.
Qed.

(** X4: every entry of the loaded table carries all eleven keys of the
    dictionary literal, whatever the length of its row, so a subscript of
    such an entry by one of them never raises [KeyError]. *)
Theorem loaded_entry_has_all_keys (reader : list row)
    (planedb : gmap string (gmap string string)) (k : string)
    (e : gmap string string) :
  load_planefile reader = Ok planedb ->
  planedb !! k = Some e ->
  dom e = plane_keys /\
  forall key, key ∈ plane_keys -> exists v, getitem e key = Ok v.
Proof.
  intros H Hk. apply load_planefile_inv in H as [_ ->].
  apply registry_of_stored in Hk as [Hk | (r & _ & _ & _ & ->)].
  - rewrite lookup_empty in Hk. discriminate.
  - split; [apply entry_of_dom |].
    intros key Hkey. rewrite <- (entry_of_dom r) in Hkey.
    apply elem_of_dom in Hkey as [v Hv].
    exists v. unfold getitem. now rewrite Hv.
Qed.

Lemma loaded_entry_has_all_keys_witness :
  dom (entry_of Sample.ref_row_again) = plane_keys /\
  forall key, key ∈ plane_keys ->
    exists v, getitem (entry_of Sample.ref_row_again) key = Ok v.
Proof.
  apply (loaded_entry_has_all_keys [Sample.ref_row_again]
           (registry_of [Sample.ref_row_again] ∅) "A51316").
  - apply load_planefile_ok. reflexivity.
  - rewrite registry_of_one by reflexivity. apply lookup_singleton_eq.
Defined.

(** ** The alert loader *)

(** X5: loading is compositional in the feed: the records of two feeds
    put one after the other are the records of the first followed by the
    records of the second. *)
Theorem load_alerts_app (reader1 reader2 : list row) :
  exists alerts1 alerts2,
    load_alerts reader1 = Ok alerts1 /\
    load_alerts reader2 = Ok alerts2 /\
    load_alerts (reader1 ++ reader2) = Ok (alerts1 ++ alerts2)%list.
Proof.
  exists (map record_of (List.filter valid_row reader1)),
         (map record_of (List.filter valid_row reader2)).
  rewrite !load_alerts_spec, List.filter_app, List.map_app. auto.
Qed.

Lemma nth_firstn {A : Type} (n i : nat) (l : list A) (d : A) :
  i < n -> nth i (firstn n l) d = nth i l d.
Proof.
  revert i l. induction n as [| n IH]; intros i l H; [lia |].
  destruct l as [| x l]; [reflexivity |].
  destruct i as [| i]; [reflexivity |].
  cbn [firstn nth]. apply IH. lia.
Qed.

Lemma valid_row_firstn (r : row) : valid_row (firstn 11 r) = valid_row r.
Proof.
  unfold valid_row. rewrite nth_firstn by lia.
  f_equal. rewrite length_firstn.
  destruct (Nat.leb_spec 10 (length r)) as [H | H].
  - apply Nat.leb_le. lia.
  - apply Nat.leb_gt. lia.
Qed.

Lemma record_of_firstn (r : row) : record_of (firstn 11 r) = record_of r.
Proof. unfold record_of. now rewrite !nth_firstn by lia. Qed.

(** X6: only the first eleven fields of a row count: cutting every row of
    a feed after its eleventh field changes nothing in what is loaded. *)
Theorem load_alerts_ignores_extra_columns (reader : list row) :
  load_alerts (map (firstn 11) reader) = load_alerts reader.
Proof.
  rewrite !load_alerts_spec. f_equal.
  induction reader as [| r reader IH]; [reflexivity |].
  cbn [map List.filter]. rewrite valid_row_firstn.
  destruct (valid_row r); cbn [map]; [rewrite record_of_firstn |];
    now rewrite IH.
Qed.

Lemma lstrip_all_space (s : string) :
  PyStr.all_space s = true -> PyStr.lstrip s = "".
Proof.
  induction s as [| c s IH]; [reflexivity |].
  cbn [PyStr.all_space PyStr.lstrip]. intros H.
  apply andb_true_iff in H as [Hc Hs]. rewrite Hc. now apply IH.
Qed.

Lemma strip_all_space (s : string) :
  PyStr.all_space s = true -> PyStr.strip s = "".
Proof. intros H. unfold PyStr.strip. now rewrite lstrip_all_space. Qed.

Lemma all_space_not_comment (s : string) :
  PyStr.all_space s = true -> PyStr.startswith s "#" = false.
Proof.
  destruct s as [| c s]; [reflexivity |].
  cbn [PyStr.all_space]. intros H. apply andb_true_iff in H as [Hc _].
  unfold PyStr.startswith. cbn [String.prefix].
  destruct (ascii_dec "#" c) as [<- | _]; [discriminate Hc | reflexivity].
Qed.

(** X7: the loader does not ask for an aircraft address.  A row of ten
    fields or more whose first field is empty or all white space is
    loaded, and its record has the empty string as [icao]. *)
Theorem load_alerts_blank_icao (reader : list row) (r : row) :
  In r reader ->
  10 <= length r ->
  PyStr.all_space (nth 0 r "") = true ->
  exists alerts a,
    load_alerts reader = Ok alerts /\ In a alerts /\
    a = record_of r /\ icao a = "".
Proof.
  intros Hin Hlen Hsp.
  exists (map record_of (List.filter valid_row reader)), (record_of r).
  split; [apply load_alerts_spec |]. split.
  - apply in_map, List.filter_In. split; [exact Hin |].
    unfold valid_row. rewrite (all_space_not_comment _ Hsp).
    apply andb_true_iff. split; [now apply Nat.leb_le | reflexivity].
  - split; [reflexivity |]. cbn [record_of icao]. now apply strip_all_space.
Qed.

Lemma load_alerts_blank_icao_witness :
  exists alerts a,
    load_alerts [[" "; "N426NA"; "NASA"; "Lockheed P-3B Orion"; "2022-01-01";
                  "12:00:00"; "10.0"; "-70.0"; "NASA1";
                  "https://adsbexchange.com/x"]]
    = Ok alerts /\ In a alerts /\
    a = record_of [" "; "N426NA"; "NASA"; "Lockheed P-3B Orion"; "2022-01-01";
                   "12:00:00"; "10.0"; "-70.0"; "NASA1";
                   "https://adsbexchange.com/x"] /\
    icao a = "".
Proof.
  apply load_alerts_blank_icao.
  - now left.
  - cbn [length]. lia.
  - reflexivity.
Defined.

Lemma emergency_trimmed (s : string) :
  is_emergency s = true -> PyStr.strip s = s.
Proof.
  unfold is_emergency. cbn [existsb]. rewrite !orb_true_iff.
  rewrite !String.eqb_eq.
  intros [-> | [-> | [-> | H]]]; [reflexivity .. | discriminate].
Qed.

(** X8: the squawk is compared as it stands in the feed.  A row that is
    loaded and whose squawk field carries white space at either end gives
    an alert that is never an emergency, whatever the code inside: its
    embed has the routine title and the amber colour. *)
Theorem padded_squawk_is_routine (config : Config)
    (planedb : gmap string (gmap string string)) (reader : list row)
    (f0 f1 f2 f3 f4 f5 f6 f7 f8 f9 sq : string) (rest : list string) :
  In (f0 :: f1 :: f2 :: f3 :: f4 :: f5 :: f6 :: f7 :: f8 :: f9 :: sq :: rest)
     reader ->
  PyStr.startswith f0 "#" = false ->
  PyStr.strip sq <> sq ->
  exists alerts a e,
    load_alerts reader = Ok alerts /\ In a alerts /\ squawk a = sq /\
    is_emergency (squawk a) = false /\
    build_alert_embed config planedb a = Ok e /\
    title e = "Plane Alert - " +:+ f3 /\
    color e = rgb 242 231 24.
Proof.
  intros Hin Hc Hsq.
  set (r := f0 :: f1 :: f2 :: f3 :: f4 :: f5 :: f6 :: f7 :: f8 :: f9 :: sq
              :: rest) in *.
  assert (Hne : is_emergency sq = false).
  { destruct (is_emergency sq) eqn:E; [| reflexivity].
    now apply emergency_trimmed in E. }
  exists (map record_of (List.filter valid_row reader)), (record_of r).
  eexists. split; [apply load_alerts_spec |]. split.
  { apply in_map, List.filter_In. split; [exact Hin |].
    unfold valid_row, r. cbn [nth]. now rewrite Hc. }
  split; [reflexivity |]. split; [exact Hne |].
  split; [apply build_alert_embed_spec |].
  cbn [embed_of title color record_of squawk plane_desc r nth].
  now rewrite Hne.
Qed.

Lemma padded_squawk_is_routine_witness :
  exists alerts a e,
    load_alerts [Sample.alert_row "N426NA" "NASA" "7700 "] = Ok alerts /\
    In a alerts /\ squawk a = "7700 " /\
    is_emergency (squawk a) = false /\
    build_alert_embed Sample.config ∅ a = Ok e /\
    title e = "Plane Alert - " +:+ "Lockheed P-3B Orion" /\
    color e = rgb 242 231 24.
Proof.
  apply (padded_squawk_is_routine Sample.config ∅
           [Sample.alert_row "N426NA" "NASA" "7700 "]
           "A51316" "N426NA" "NASA" "Lockheed P-3B Orion" "2022-01-01"
           "12:00:00" "10.0" "-70.0" "NASA1" "https://adsbexchange.com/x"
           "7700 " []).
  - now left.
  - reflexivity.
  - vm_compute. discriminate.
Defined.

Lemma space_not_hash (c : ascii) (s : string) :
  PyStr.isspace c = true -> PyStr.startswith (String c s) "#" = false.
Proof.
  intros Hc. unfold PyStr.startswith. cbn [String.prefix].
  destruct (ascii_dec "#" c) as [<- | _]; [discriminate Hc | reflexivity].
Qed.

(** X9: a comment is recognised only at the very start of the line.  A
    registry row whose first field starts with white space is not taken
    for a comment, and when it has fewer than four fields, as an indented
    comment line has, it makes the load raise [IndexError]. *)
Theorem load_planefile_indented_comment (reader : list row) (r : row)
    (c : ascii) (s : string) :
  In r reader ->
  nth 0 r "" = String c s ->
  PyStr.isspace c = true ->
  length r < 4 ->
  comment_row r = false /\ load_planefile reader = Raise IndexError.
Proof.
  intros Hin Hf Hc Hlen.
  assert (Hnc : comment_row r = false).
  { unfold comment_row. rewrite Hf. now apply space_not_hash. }
  split; [exact Hnc |].
  apply load_planefile_loop_fail, not_true_is_false. intros Hall.
  rewrite forallb_forall in Hall. specialize (Hall _ Hin).
  assert (loadable r = false) as Hl; [| congruence].
  apply loadable_false. right. now split.
Qed.

Lemma load_planefile_indented_comment_witness :
  comment_row [" # ICAO"; "Registration"] = false /\
  load_planefile [Sample.ref_row; [" # ICAO"; "Registration"]]
  = Raise IndexError.
Proof.
  apply (load_planefile_indented_comment _ _ " " "# ICAO").
  - right. now left.
  - reflexivity.
  - reflexivity.
  - cbn [length]. lia.
Defined.

(** ** The stale copy of the registry loader *)

Lemma legacy_plane_of_row_long (r : row) :
  10 <= length r -> Legacy.plane_of_row r = Ok (entry_of r).
Proof.
  intros H.
  do 10 (destruct r as [| ? r]; [simpl in H; lia |]).
  destruct r as [| ? r]; reflexivity.
Qed.

Lemma legacy_plane_of_row_short (r : row) :
  length r < 10 -> Legacy.plane_of_row r = Raise IndexError.
Proof.
  intros H.
  do 10 (destruct r as [| ? r]; [reflexivity |]).
  simpl in H. lia.
Qed.

Lemma legacy_loop_cons (r : row) (reader : list row)
    (planedb : gmap string (gmap string string)) :
  Legacy.load_planefile_loop (r :: reader) planedb
  = if legacy_loadable r
    then Legacy.load_planefile_loop reader
           (if comment_row r then planedb
            else <[nth 0 r "" := entry_of r]> planedb)
    else Raise IndexError.
Proof.
  destruct r as [| f rest]; [reflexivity |].
  cbn [Legacy.load_planefile_loop legacy_loadable].
  unfold comment_row. cbn [item lookup list_lookup bind nth].
  destruct (PyStr.startswith f "#") eqn:Hc; cbn [orb]; [reflexivity |].
  destruct (Nat.leb_spec 10 (length (f :: rest))) as [Hl | Hl].
  - rewrite (legacy_plane_of_row_long _ Hl). cbn [bind].
    unfold getitem. rewrite entry_of_icao. reflexivity.
  - now rewrite (legacy_plane_of_row_short _ Hl).
Qed.

Lemma legacy_loop_outcome (reader : list row)
    (planedb : gmap string (gmap string string)) :
  Legacy.load_planefile_loop reader planedb
  = if forallb legacy_loadable reader then Ok (registry_of reader planedb)
    else Raise IndexError.
Proof.
  revert planedb. induction reader as [| r reader IH]; intros planedb.
  - reflexivity.
  - rewrite legacy_loop_cons. cbn [forallb registry_of].
    destruct (legacy_loadable r); [| reflexivity].
    cbn [andb]. rewrite IH. now destruct (comment_row r).
Qed.

Lemma legacy_loadable_loadable (r : row) :
  legacy_loadable r = true -> loadable r = true.
Proof.
  destruct r as [| f rest]; [discriminate |].
  cbn [legacy_loadable loadable]. rewrite !orb_true_iff, !Nat.leb_le.
  intros [H | H]; [now left | right; lia].
Qed.

(** X10: the current loader extends the stale one.  The stale copy raises
    [IndexError] as soon as a row that is not a comment has fewer than ten
    fields; whenever it does load a feed, the current copy loads the same
    feed into the same table. *)
Theorem legacy_load_is_refined (reader : list row)
    (planedb : gmap string (gmap string string)) :
  Legacy.load_planefile reader = Ok planedb ->
  forallb legacy_loadable reader = true /\
  load_planefile reader = Ok planedb.
Proof.
  unfold Legacy.load_planefile. rewrite legacy_loop_outcome.
  destruct (forallb legacy_loadable reader) eqn:E; [| discriminate].
  intros [= <-]. split; [reflexivity |].
  apply load_planefile_ok. apply forallb_forall. intros r Hr.
  rewrite forallb_forall in E. apply legacy_loadable_loadable, E, Hr.
Qed.

Lemma legacy_load_is_refined_witness :
  forallb legacy_loadable [["# ICAO"]; Sample.ref_row] = true /\
  load_planefile [["# ICAO"]; Sample.ref_row]
  = Ok (registry_of [["# ICAO"]; Sample.ref_row] ∅).
Proof.
  apply legacy_load_is_refined.
  unfold Legacy.load_planefile. now rewrite legacy_loop_outcome.
Defined.

(** ** The tracking link *)

Lemma without_brackets_id (s : string) :
  PyStr.contains "[" s = false -> PyStr.contains "]" s = false ->
  without_brackets s = s.
Proof.
  induction s as [| c s IH]; [reflexivity |].
  cbn [PyStr.contains without_brackets]. rewrite !orb_false_iff.
  intros [H1 H1'] [H2 H2']. rewrite H1, H2. cbn [orb].
  now rewrite IH.
Qed.

(** X11: identifiers that are already clean pass through unchanged: when
    neither identifier has white space at its ends or a bracket anywhere,
    the link is the fixed address with the two identifiers put in as they
    are. *)
Theorem flightaware_link_clean_identifiers (icao tail_num : string) :
  PyStr.trimmed icao -> PyStr.trimmed tail_num ->
  PyStr.contains "[" icao = false -> PyStr.contains "]" icao = false ->
  PyStr.contains "[" tail_num = false -> PyStr.contains "]" tail_num = false ->
  flightaware_link icao tail_num
  = "https://flightaware.com/live/modes/" +:+ icao +:+ "/ident/" +:+ tail_num
      +:+ "/redirect".
Proof.
  intros Hi Ht Hi1 Hi2 Ht1 Ht2.
  rewrite flightaware_link_shape, (strip_id _ Hi), (strip_id _ Ht).
  now rewrite !without_brackets_id.
Qed.

Lemma flightaware_link_clean_identifiers_witness :
  flightaware_link "A51316" "N426NA"
  = "https://flightaware.com/live/modes/" +:+ "A51316" +:+ "/ident/"
      +:+ "N426NA" +:+ "/redirect".
Proof.
  apply flightaware_link_clean_identifiers; try reflexivity.
  - split; intros c [= <-]; reflexivity.
  - split; intros c [= <-]; reflexivity.
Defined.

(** ** Delivery and the processing loop *)

(** X12: a setting that is missing stops [send] before the webhook is
    used.  For a subsystem name of ASCII characters, when the
    configuration lacks the webhook list of the subsystem or the media
    setting, [send] raises [KeyError] with the missing key, the world is
    untouched and nothing is handed over. *)
Theorem send_missing_setting {World : Type}
    (webhook : World -> string -> string -> Embed -> World * result bool)
    (config : Config) (subsystem : string) (e : Embed) (st : Run) :
  isascii subsystem = true ->
  config !! (upper subsystem +:+ "_DISCORD_WEBHOOKS") = None \/
  config !! "DISCORD_MEDIA" = None ->
  exists key,
    send webhook config subsystem e st = (st, Raise (KeyError key)) /\
    config !! key = None /\
    (key = upper subsystem +:+ "_DISCORD_WEBHOOKS" \/ key = "DISCORD_MEDIA").
Proof.
  intros _ H. unfold send, getitem.
  destruct (config !! (upper subsystem +:+ "_DISCORD_WEBHOOKS")) as [urls |]
    eqn:Hu.
  - destruct H as [H | H]; [discriminate |]. rewrite H.
    exists "DISCORD_MEDIA". auto.
  - exists (upper subsystem +:+ "_DISCORD_WEBHOOKS"). auto.
Qed.

Lemma send_missing_setting_witness :
  exists key,
    send Sample.refusing ∅ "pa"
      (embed_of ∅ ∅ (Sample.alert "N426NA" "NASA" "1200")) (mkRun tt [])
    = (mkRun tt [], Raise (KeyError key)) /\
    (∅ : Config) !! key = None /\
    (key = upper "pa" +:+ "_DISCORD_WEBHOOKS" \/ key = "DISCORD_MEDIA").
Proof.
  apply send_missing_setting; [reflexivity |]. left. apply lookup_empty.
Defined.

(** X13: the loop is compositional in the alerts: processing two lists put
    one after the other is processing the first and, when that ends
    normally, the second from the state reached; an exception in the first
    is the outcome of the whole and the second is not touched. *)
Theorem process_alerts_app {World : Type}
    (webhook : World -> string -> string -> Embed -> World * result bool)
    (config : Config) (planedb : gmap string (gmap string string))
    (alerts1 alerts2 : list Alert) (st : Run) :
  process_alerts webhook config planedb (alerts1 ++ alerts2) st
  = match process_alerts webhook config planedb alerts1 st with
    | (st1, Ok _) => process_alerts webhook config planedb alerts2 st1
    | (st1, Raise x) => (st1, Raise x)
    end.
Proof.
  revert st. induction alerts1 as [| plane alerts1 IH]; intros st.
  - reflexivity.
  - cbn [app process_alerts].
    destruct (build_alert_embed config planedb plane) as [e | x];
      [| reflexivity].
    destruct (send webhook config "PA" e st) as [st' [[] | x]];
      [apply IH | reflexivity].
Qed.

Lemma process_alerts_raise_inv {World : Type}
    (webhook : World -> string -> string -> Embed -> World * result bool)
    (config : Config) (planedb : gmap string (gmap string string))
    (alerts : list Alert) (st st' : Run) (x : exn) :
  process_alerts webhook config planedb alerts st = (st', Raise x) ->
  (config !! "PA_DISCORD_WEBHOOKS" = None /\
   x = KeyError "PA_DISCORD_WEBHOOKS") \/
  (config !! "DISCORD_MEDIA" = None /\ x = KeyError "DISCORD_MEDIA") \/
  exists w urls media e, (webhook w urls media e).2 = Raise x.
Proof.
  revert st. induction alerts as [| plane alerts IH]; intros st H.
  - discriminate.
  - cbn [process_alerts] in H. rewrite build_alert_embed_spec in H.
    unfold send, getitem in H.
    change (upper "PA" +:+ "_DISCORD_WEBHOOKS") with "PA_DISCORD_WEBHOOKS"
      in H.
    destruct (config !! "PA_DISCORD_WEBHOOKS") as [urls |];
      [| injection H as _ <-; now left].
    destruct (config !! "DISCORD_MEDIA") as [media |];
      [| injection H as _ <-; right; now left].
    destruct (webhook (world st) urls media _) as [w [accepted | y]] eqn:Hw.
    + exact (IH _ H).
    + injection H as _ <-. right. right.
      eexists _, _, _, _. rewrite Hw. reflexivity.
Qed.

(** X14: the loop raises only what [send] raises.  An exception that
    ends it is a [KeyError] for one of the two settings [send] reads, or
    it comes from the webhook; building the embed never raises, whatever
    the registry entry holds. *)
Theorem process_alerts_exceptions {World : Type}
    (webhook : World -> string -> string -> Embed -> World * result bool)
    (config : Config) (planedb : gmap string (gmap string string))
    (alerts : list Alert) (st st' : Run) (x : exn) :
  process_alerts webhook config planedb alerts st = (st', Raise x) ->
  x = KeyError "PA_DISCORD_WEBHOOKS" \/ x = KeyError "DISCORD_MEDIA" \/
  exists w urls media e, (webhook w urls media e).2 = Raise x.
Proof.
  intros H. apply process_alerts_raise_inv in H.
  destruct H as [[_ H] | [[_ H] | H]].
  - now left.
  - right. now left.
  - right. now right.
Qed.

Lemma process_alerts_exceptions_witness :
  TransportError = KeyError "PA_DISCORD_WEBHOOKS" \/
  TransportError = KeyError "DISCORD_MEDIA" \/
  exists w urls media e, (Sample.raising w urls media e).2 = Raise TransportError.
Proof.
  apply (process_alerts_exceptions Sample.raising Sample.config ∅
           [Sample.alert "N426NA" "NASA" "1200"] (mkRun tt [])
           (mkRun tt [embed_of Sample.config ∅
                        (Sample.alert "N426NA" "NASA" "1200")])).
  vm_compute. reflexivity.
Defined.

(** ** The notification *)

(** X15: an aircraft the registry does not know.  When the table has no
    entry for the address of the alert, the embed is still built and has
    at most the pairs Feeder, ICAO, Tail Number and Callsign, in this
    order; no subscript of the empty dictionary is taken. *)
Theorem unknown_aircraft_fields (config : Config)
    (planedb : gmap string (gmap string string)) (plane : Alert) :
  planedb !! icao plane = None ->
  exists e,
    build_alert_embed config planedb plane = Ok e /\
    fields e
    = map (rendered config ∅ plane)
        (List.filter (included config ∅ plane)
           [Feeder; ICAO; TailNumber; Callsign]).
Proof.
  intros H. eexists. split; [apply build_alert_embed_spec |].
  unfold get_plane_info. rewrite H. cbn [default from_option id].
  cbn [embed_of fields]. unfold slots.
  cbn [List.filter included underlying]. rewrite !get_empty.
  cbn [String.eqb negb].
  destruct (negb (String.eqb (get config "DISCORD_FEEDER_NAME" "") ""));
    destruct (negb (String.eqb (callsign plane) "")); reflexivity.
Qed.

Lemma unknown_aircraft_fields_witness :
  exists e,
    build_alert_embed Sample.config (registry_of [Sample.ref_row_padded] ∅)
      (Sample.alert "N426NA" "NASA" "1200")
    = Ok e /\
    fields e
    = map (rendered Sample.config ∅ (Sample.alert "N426NA" "NASA" "1200"))
        (List.filter
           (included Sample.config ∅ (Sample.alert "N426NA" "NASA" "1200"))
           [Feeder; ICAO; TailNumber; Callsign]).
Proof.
  apply unknown_aircraft_fields.
  rewrite registry_of_one by reflexivity. now apply lookup_singleton_ne.
Defined.

(** X16: the squawk decides the title and the colour and nothing else:
    two alerts that differ in the squawk alone get the same description
    and the same pairs. *)
Theorem squawk_changes_title_and_color_only (config : Config)
    (planedb : gmap string (gmap string string)) (plane : Alert)
    (sq : string) :
  exists e e',
    build_alert_embed config planedb plane = Ok e /\
    build_alert_embed config planedb (with_squawk plane sq) = Ok e' /\
    description e' = description e /\
    fields e' = fields e.
Proof.
  eexists _, _.
  split; [apply build_alert_embed_spec |].
  split; [apply build_alert_embed_spec |].
  split; reflexivity.
Qed.

(** ** Splitting and joining *)

Lemma split_not_nil (sep : ascii) (s : string) : PyText.split sep s <> [].
Proof.
  destruct s as [| c s]; cbn [PyText.split]; [discriminate |].
  destruct (Ascii.eqb c sep); [discriminate |].
  destruct (PyText.split sep s); discriminate.
Qed.

Lemma split_length (sep : ascii) (s : string) :
  length (PyText.split sep s) = S (PyText.count sep s).
Proof.
  induction s as [| c s IH]; [reflexivity |].
  cbn [PyText.split PyText.count].
  destruct (Ascii.eqb c sep); cbn [length]; [now rewrite IH |].
  destruct (PyText.split sep s) as [| x xs] eqn:E.
  - now destruct (split_not_nil sep s).
  - cbn [length] in *. exact IH.
Qed.

Lemma join_split (sep : ascii) (s : string) :
  PyText.join sep (PyText.split sep s) = s.
Proof.
  induction s as [| c s IH]; [reflexivity |].
  cbn [PyText.split].
  destruct (Ascii.eqb_spec c sep) as [-> | Hne].
  - destruct (PyText.split sep s) as [| x xs] eqn:E.
    + now destruct (split_not_nil sep s).
    + change (PyText.join sep ("" :: x :: xs))
        with ("" +:+ String sep (PyText.join sep (x :: xs))).
      now rewrite IH.
  - destruct (PyText.split sep s) as [| x xs] eqn:E.
    + now destruct (split_not_nil sep s).
    + destruct xs as [| y ys].
      * cbn [PyText.join] in *. now rewrite IH.
      * change (PyText.join sep (String c x :: y :: ys))
          with (String c x +:+ String sep (PyText.join sep (y :: ys))).
        change (PyText.join sep (x :: y :: ys))
          with (x +:+ String sep (PyText.join sep (y :: ys))) in IH.
        now rewrite append_cons, IH.
Qed.

(** ** The configuration *)

Lemma config_line_entry (config : Config) (line : string) :
  config_line config line
  = match line_entry line with
    | Some (k, v) => <[k := v]> config
    | None => config
    end.
Proof.
  unfold config_line, line_entry.
  destruct (PyStr.startswith (PyStr.strip line) "#"); [reflexivity |].
  destruct (PyText.split "=" line) as [| k [| v [| ? ?]]]; reflexivity.
Qed.

Lemma line_entry_some (line k v : string) :
  line_entry line = Some (k, v) ->
  PyStr.startswith (PyStr.strip line) "#" = false /\
  PyText.count "=" line = 1 /\
  exists k0 v0,
    line = k0 +:+ String "=" v0 /\ k = PyStr.strip k0 /\ v = PyStr.strip v0.
Proof.
  unfold line_entry.
  destruct (PyStr.startswith (PyStr.strip line) "#"); [discriminate |].
  pose proof (split_length "=" line) as Hlen.
  pose proof (join_split "=" line) as Hjoin.
  destruct (PyText.split "=" line) as [| k0 [| v0 [| ? ?]]]; try discriminate.
  intros [= <- <-]. split; [reflexivity |].
  split; [cbn [length] in Hlen; lia |].
  exists k0, v0. now split.
Qed.

Lemma line_entry_none (line : string) :
  line_entry line = None <->
  PyStr.startswith (PyStr.strip line) "#" = true \/
  PyText.count "=" line <> 1.
Proof.
  split.
  - unfold line_entry.
    destruct (PyStr.startswith (PyStr.strip line) "#"); [now left |].
    pose proof (split_length "=" line) as Hlen.
    destruct (PyText.split "=" line) as [| k0 [| v0 [| ? ?]]];
      try discriminate; intros _; right; cbn [length] in Hlen; lia.
  - intros H. destruct (line_entry line) as [[k v] |] eqn:E; [| reflexivity].
    apply line_entry_some in E as (Hc & Hn & _).
    destruct H as [H | H]; [congruence | contradiction].
Qed.

Lemma read_lines_other (lines : list string) (config : Config) (k : string) :
  (forall l, In l lines -> fst <$> line_entry l <> Some k) ->
  fold_left config_line lines config !! k = config !! k.
Proof.
  revert config. induction lines as [| l lines IH]; intros config H.
  - reflexivity.
  - cbn [fold_left]. rewrite IH by (intros l' Hl'; apply H; now right).
    rewrite config_line_entry.
    specialize (H l (or_introl eq_refl)).
    destruct (line_entry l) as [[k' v'] |]; [| reflexivity].
    apply lookup_insert_ne. intros ->. now apply H.
Qed.

Lemma read_lines_keeps (lines : list string) (config : Config) (k : string) :
  is_Some (config !! k) -> is_Some (fold_left config_line lines config !! k).
Proof.
  revert config. induction lines as [| l lines IH]; intros config H.
  - exact H.
  - cbn [fold_left]. apply IH. rewrite config_line_entry.
    destruct (line_entry l) as [[k' v'] |]; [| exact H].
    destruct (decide (k' = k)) as [-> | Hk].
    + rewrite lookup_insert_eq. now eexists.
    + now rewrite lookup_insert_ne.
Qed.

Lemma env_config_lookup (out : Outside) (k : string) :
  In k base_keys -> is_Some (env_config out !! k).
Proof.
  intros [<- | [<- | [<- | [<- | [<- | []]]]]]; now eexists.
Qed.

Lemma read_config_has (out : Outside) (k : string) :
  In k base_keys -> is_Some (read_config out !! k).
Proof.
  intros H. unfold read_config.
  destruct (text_files out (config_path out)) as [lines |].
  - apply read_lines_keeps. now apply env_config_lookup.
  - now apply env_config_lookup.
Qed.

(** X17: what one line of the configuration file does.  A line is
    ignored when it is a comment (after stripping) or does not have
    exactly one [=], so a value that itself holds an [=] is dropped with
    its line; any other line is [key=value] and sets the stripped key to
    the stripped value. *)
Theorem config_line_effect (config : Config) (line : string) :
  (PyStr.startswith (PyStr.strip line) "#" = true \/
   PyText.count "=" line <> 1 ->
   config_line config line = config) /\
  (PyStr.startswith (PyStr.strip line) "#" = false ->
   PyText.count "=" line = 1 ->
   exists k v,
     line = k +:+ String "=" v /\
     config_line config line = <[PyStr.strip k := PyStr.strip v]> config).
Proof.
  rewrite config_line_entry. split.
  - intros H. apply line_entry_none in H. now rewrite H.
  - intros Hc Hn. destruct (line_entry line) as [[k v] |] eqn:E.
    + apply line_entry_some in E as (_ & _ & k0 & v0 & Hl & -> & ->).
      now exists k0, v0.
    + apply line_entry_none in E as [E | E]; [congruence | contradiction].
Qed.

(** X18: the file overrides the environment, and the last line wins.  A
    setting has the value of the last line of the configuration file that
    sets it; a setting no line sets keeps what the environment, or the
    default, gave it. *)
Theorem read_config_precedence (out : Outside) (lines : list string) :
  text_files out (config_path out) = Some lines ->
  (forall before line after k v,
     lines = (before ++ line :: after)%list ->
     line_entry line = Some (k, v) ->
     (forall l, In l after -> fst <$> line_entry l <> Some k) ->
     read_config out !! k = Some v) /\
  (forall k,
     (forall l, In l lines -> fst <$> line_entry l <> Some k) ->
     read_config out !! k = env_config out !! k).
Proof.
  intros Hf. unfold read_config. rewrite Hf. split.
  - intros before line after k v -> He Hafter.
    rewrite fold_left_app. cbn [fold_left].
    rewrite (read_lines_other after _ _ Hafter), config_line_entry, He.
    apply lookup_insert_eq.
  - intros k Hk. now apply read_lines_other.
Qed.

Lemma read_config_precedence_witness :
  read_config
    (mkOutside {[ "DISCORD_FEEDER_NAME" := "from-env" ]}
       (fun _ => Some ["# settings" +:+ nl;
                       "DISCORD_FEEDER_NAME = first" +:+ nl;
                       " DISCORD_FEEDER_NAME=second " +:+ nl])
       (fun _ => None))
  !! "DISCORD_FEEDER_NAME"
  = Some "second".
Proof.
  destruct (read_config_precedence
              (mkOutside {[ "DISCORD_FEEDER_NAME" := "from-env" ]}
                 (fun _ => Some ["# settings" +:+ nl;
                                 "DISCORD_FEEDER_NAME = first" +:+ nl;
                                 " DISCORD_FEEDER_NAME=second " +:+ nl])
                 (fun _ => None))
              ["# settings" +:+ nl;
               "DISCORD_FEEDER_NAME = first" +:+ nl;
               " DISCORD_FEEDER_NAME=second " +:+ nl]) as [Hlast _].
  - reflexivity.
  - apply (Hlast ["# settings" +:+ nl; "DISCORD_FEEDER_NAME = first" +:+ nl]
             (" DISCORD_FEEDER_NAME=second " +:+ nl) []).
    + reflexivity.
    + reflexivity.
    + intros l [].
Defined.

Lemma convert_lookup_webhooks (config : Config) :
  convert config !! "PA_DISCORD_WEBHOOKS"
  = Some (VList (PyText.split "," (get config "PA_DISCORD_WEBHOOKS" ""))) /\
  convert config !! "PF_DISCORD_WEBHOOKS"
  = Some (VList (PyText.split "," (get config "PF_DISCORD_WEBHOOKS" ""))).
Proof.
  unfold convert. split.
  - rewrite lookup_insert_ne by discriminate. apply lookup_insert_eq.
  - apply lookup_insert_eq.
Qed.

Lemma convert_lookup_other (config : Config) (k : string) :
  k <> "PA_DISCORD_WEBHOOKS" -> k <> "PF_DISCORD_WEBHOOKS" ->
  convert config !! k = VStr <$> config !! k.
Proof.
  intros H1 H2. unfold convert.
  rewrite !lookup_insert_ne by congruence. apply lookup_fmap.
Qed.

Lemma comma_form_convert (config : Config) :
  is_Some (config !! "PA_DISCORD_WEBHOOKS") ->
  is_Some (config !! "PF_DISCORD_WEBHOOKS") ->
  comma_form (convert config) = config.
Proof.
  intros [pa Hpa] [pf Hpf]. apply map_eq. intros k.
  unfold comma_form. rewrite lookup_fmap.
  destruct (convert_lookup_webhooks config) as [H1 H2].
  destruct (decide (k = "PA_DISCORD_WEBHOOKS")) as [-> | Hk1].
  { rewrite H1. unfold get. rewrite Hpa. cbn. now rewrite join_split. }
  destruct (decide (k = "PF_DISCORD_WEBHOOKS")) as [-> | Hk2].
  { rewrite H2. unfold get. rewrite Hpf. cbn. now rewrite join_split. }
  rewrite convert_lookup_other by assumption.
  now destruct (config !! k).
Qed.

Lemma load_config_comma_form (out : Outside)
    (settings : gmap string value)
    (planedb : gmap string (gmap string string)) :
  load_config out = Done (settings, planedb) ->
  settings = convert (read_config out) /\
  comma_form settings = read_config out.
Proof.
  unfold load_config. intros H.
  destruct (getitem (read_config out) "PLANEFILE") as [path | x];
    [| discriminate].
  destruct (csv_files out path) as [reader |]; [| discriminate].
  destruct (load_planefile reader) as [db | x]; [| discriminate].
  injection H as <- <-. split; [reflexivity |].
  apply comma_form_convert; apply read_config_has; cbn; auto.
Qed.

(** X19: what [load_config] hands to the rest of the program.  Whatever
    the environment and the files hold, the settings it returns have the
    two webhook entries as lists that are never empty (an unset entry is
    the list of one empty string), the three other basic entries as
    strings, and joining the lists with commas gives back the
    configuration as read. *)
Theorem load_config_settings (out : Outside)
    (settings : gmap string value)
    (planedb : gmap string (gmap string string)) :
  load_config out = Done (settings, planedb) ->
  (forall k, k = "PA_DISCORD_WEBHOOKS" \/ k = "PF_DISCORD_WEBHOOKS" ->
     exists l, settings !! k = Some (VList l) /\ l <> [] /\
               l = PyText.split "," (get (read_config out) k "")) /\
  (forall k, k = "PLANEFILE" \/ k = "DISCORD_FEEDER_NAME" \/
             k = "DISCORD_MEDIA" ->
     exists s, settings !! k = Some (VStr s)) /\
  PyText.split "," "" = [""] /\
  comma_form settings = read_config out.
Proof.
  intros H. apply load_config_comma_form in H as [-> Hcomma].
  destruct (convert_lookup_webhooks (read_config out)) as [H1 H2].
  split.
  { intros k [-> | ->]; eexists; (split; [eassumption |]);
      (split; [apply split_not_nil | reflexivity]). }
  split.
  { intros k Hk.
    assert (In k base_keys) as Hin
      by (cbn; destruct Hk as [-> | [-> | ->]]; auto 6).
    destruct (read_config_has out k Hin) as [s Hs].
    exists s. rewrite convert_lookup_other, Hs; [reflexivity | |];
      destruct Hk as [-> | [-> | ->]]; discriminate. }
  split; [reflexivity | exact Hcomma].
Qed.

Lemma load_config_cases (out : Outside) :
  load_config out
  = match csv_files out (get (read_config out) "PLANEFILE" "") with
    | None => Failed (FileNotFoundError (get (read_config out) "PLANEFILE" ""))
    | Some reader =>
        if forallb loadable reader
        then Done (convert (read_config out), registry_of reader ∅)
        else Failed (Raised IndexError)
    end.
Proof.
  unfold load_config, getitem, get.
  destruct (read_config_has out "PLANEFILE") as [path ->]; [now left |].
  cbn [default from_option id].
  destruct (csv_files out path) as [reader |]; [| reflexivity].
  destruct (forallb loadable reader) eqn:E.
  - now rewrite (load_planefile_ok _ E).
  - unfold load_planefile. now rewrite (load_planefile_loop_fail _ _ E).
Qed.

(** X20: how [load_config] ends when its two files are read.  With
    [planefence.config] read as lines and the registry file named by the
    [PLANEFILE] setting read as rows, [load_config] fails with
    [IndexError] when a row stops the loader and returns the converted
    settings and the table of the rows otherwise.  No line of the
    configuration file makes it fail, and neither a missing key nor an
    invalid configuration is ever reported. *)
Theorem load_config_outcome (out : Outside) (lines : list string)
    (reader : list row) :
  text_files out (config_path out) = Some lines ->
  csv_files out (get (read_config out) "PLANEFILE" "") = Some reader ->
  read_config out = fold_left config_line lines (env_config out) /\
  load_config out
  = if forallb loadable reader
    then Done (convert (read_config out), registry_of reader ∅)
    else Failed (Raised IndexError).
Proof.
  intros Hcfg Hreg. split.
  - unfold read_config. cbv zeta. now rewrite Hcfg.
  - rewrite load_config_cases. now rewrite Hreg.
Qed.

Lemma load_config_outcome_witness :
  read_config Setup.configured
  = fold_left config_line Setup.config_lines (env_config Setup.configured) /\
  load_config Setup.configured
  = if forallb loadable [Sample.ref_row]
    then Done (convert (read_config Setup.configured),
               registry_of [Sample.ref_row] ∅)
    else Failed (Raised IndexError).
Proof.
  apply (load_config_outcome Setup.configured Setup.config_lines
           [Sample.ref_row]).
  - reflexivity.
  - vm_compute. reflexivity.
Defined.

Lemma setup_load_config :
  load_config Setup.outside
  = Done (convert (read_config Setup.outside), registry_of [Sample.ref_row] ∅).
Proof. rewrite load_config_cases. reflexivity. Qed.

Lemma load_config_settings_witness :
  comma_form (convert (read_config Setup.outside)) = read_config Setup.outside.
Proof.
  exact (proj2 (proj2 (proj2
           (load_config_settings Setup.outside
              (convert (read_config Setup.outside))
              (registry_of [Sample.ref_row] ∅) setup_load_config)))).
Defined.

(** ** The program *)

(** X21: the arguments are looked at after the configuration.  With a
    number of arguments other than one, [main] hands nothing over and ends
    with the failure of [load_config] when there is one, and only
    otherwise with exit status 1. *)
Theorem main_usage {World : Type}
    (webhook : World -> string -> string -> Embed -> World * result bool)
    (argv : list string) (out : Outside) (w : World) :
  length argv <> 2 ->
  exists f,
    main webhook argv out w = (mkRun w [], Failed f) /\
    (load_config out = Failed f \/
     (exists c, load_config out = Done c) /\ f = SystemExit 1).
Proof.
  intros Hlen. unfold main.
  destruct (load_config out) as [[settings planedb] | f].
  - exists (SystemExit 1).
    destruct argv as [| a0 [| a1 [| a2 argv]]]; cbn [length] in Hlen;
      try lia; (split; [reflexivity | right; split; [now eexists | reflexivity]]).
  - exists f. now split; [| left].
Qed.

Lemma main_usage_witness :
  exists f,
    main Sample.refusing ["send-discord-alert.py"] Setup.outside tt
    = (mkRun tt [], Failed f) /\
    (load_config Setup.outside = Failed f \/
     (exists c, load_config Setup.outside = Done c) /\ f = SystemExit 1).
Proof.
  apply main_usage. cbn [length]. lia.
Defined.

(** X22: a whole run.  When the configuration loads, the feed named by the
    one argument can be opened and every call of the webhook returns,
    [main] ends normally and has handed over, in file order, one embed for
    each row of the feed that has ten fields or more and is not a comment:
    after [load_config] the two settings [send] reads are always there. *)
Theorem main_delivers_feed {World : Type}
    (webhook : World -> string -> string -> Embed -> World * result bool)
    (prog input_file : string) (out : Outside) (w : World)
    (settings : gmap string value)
    (planedb : gmap string (gmap string string)) (reader : list row) :
  (forall w urls media e, exists accepted,
      (webhook w urls media e).2 = Ok accepted) ->
  load_config out = Done (settings, planedb) ->
  csv_files out input_file = Some reader ->
  exists st,
    main webhook [prog; input_file] out w = (st, Done tt) /\
    handed st
    = map (fun plane =>
             embed_of (read_config out) (get_plane_info planedb (icao plane))
               plane)
        (map record_of (List.filter valid_row reader)).
Proof.
  intros Hret Hload Hfeed. unfold main. rewrite Hload, Hfeed, load_alerts_spec.
  destruct (load_config_comma_form _ _ _ Hload) as [_ ->].
  destruct (process_alerts_all webhook (read_config out) Hret
              (read_config_has out "PA_DISCORD_WEBHOOKS"
                 ltac:(cbn; auto))
              (read_config_has out "DISCORD_MEDIA" ltac:(cbn; auto 6))
              planedb (map record_of (List.filter valid_row reader))
              (mkRun w [])) as (st & Hp & Hh).
  exists st. rewrite Hp. split; [reflexivity | exact Hh].
Qed.

Lemma main_delivers_feed_witness :
  exists st,
    main Sample.refusing ["send-discord-alert.py"; "alerts.csv"] Setup.outside
      tt
    = (st, Done tt) /\
    handed st
    = map (fun plane =>
             embed_of (read_config Setup.outside)
               (get_plane_info (registry_of [Sample.ref_row] ∅) (icao plane))
               plane)
        (map record_of
           (List.filter valid_row
              [["# ICAO"; "TailNr"];
               Sample.alert_row "N426NA" "NASA" "1200";
               Sample.alert_row "N426NA" "NASA" "7500"])).
Proof.
  apply (main_delivers_feed Sample.refusing "send-discord-alert.py"
           "alerts.csv" Setup.outside tt
           (convert (read_config Setup.outside))).
  - intros w urls media e. exists false. reflexivity.
  - exact setup_load_config.
  - reflexivity.
Defined.

(** X23: what can end [main] early when its files are read.  With
    [planefence.config] read as lines, the registry file read as rows
    and, when there is one argument, the feed it names read as rows,
    [main] can end early in three ways only: with [IndexError] from a row
    of the registry that stops the loader, with exit status 1 when the
    number of arguments is not one, or with an exception raised by a call
    of the webhook.  No [KeyError], no line of the configuration and no
    row of the feed can end it. *)
Theorem main_failures {World : Type}
    (webhook : World -> string -> string -> Embed -> World * result bool)
    (argv : list string) (out : Outside) (w : World) (st : Run)
    (f : failure) (lines : list string) (refs : list row) :
  text_files out (config_path out) = Some lines ->
  csv_files out (get (read_config out) "PLANEFILE" "") = Some refs ->
  (forall prog input_file,
      argv = [prog; input_file] -> is_Some (csv_files out input_file)) ->
  main webhook argv out w = (st, Failed f) ->
  (f = Raised IndexError /\ forallb loadable refs = false) \/
  (f = SystemExit 1 /\ forallb loadable refs = true /\ length argv <> 2) \/
  (forallb loadable refs = true /\ length argv = 2 /\
   exists x w' urls media e,
     f = Raised x /\ (webhook w' urls media e).2 = Raise x).
Proof.
  intros _ Hreg Hfeed. unfold main. rewrite load_config_cases, Hreg.
  destruct (forallb loadable refs); [| intros [= _ <-]; now left].
  destruct argv as [| a0 [| input [| a2 argv]]];
    try (intros [= _ <-]; right; left; cbn [length]; repeat split;
         discriminate).
  destruct (Hfeed a0 input eq_refl) as [reader ->].
  rewrite load_alerts_spec.
  rewrite comma_form_convert
    by (apply read_config_has; cbn; auto).
  destruct (process_alerts webhook (read_config out) (registry_of refs ∅)
              (map record_of (List.filter valid_row reader)) (mkRun w []))
    as [st' [[] | x]] eqn:Hp; [discriminate |].
  intros [= _ <-]. right. right. split; [reflexivity |].
  split; [reflexivity |].
  apply process_alerts_raise_inv in Hp.
  destruct Hp as [[Hk _] | [[Hk _] | (w' & urls & media & e & He)]].
  - exfalso. destruct (read_config_has out "PA_DISCORD_WEBHOOKS") as [? ?];
      [cbn; auto | congruence].
  - exfalso. destruct (read_config_has out "DISCORD_MEDIA") as [? ?];
      [cbn; auto 6 | congruence].
  - now exists x, w', urls, media, e.
Qed.

Lemma main_failures_witness :
  (Raised TransportError = Raised IndexError /\
   forallb loadable [Sample.ref_row] = false) \/
  (Raised TransportError = SystemExit 1 /\
   forallb loadable [Sample.ref_row] = true /\
   length ["send-discord-alert.py"; "alerts.csv"] <> 2) \/
  (forallb loadable [Sample.ref_row] = true /\
   length ["send-discord-alert.py"; "alerts.csv"] = 2 /\
   exists x w' urls media e,
     Raised TransportError = Raised x /\
     (Sample.raising w' urls media e).2 = Raise x).
Proof.
  apply (main_failures Sample.raising ["send-discord-alert.py"; "alerts.csv"]
           Setup.configured tt
           (mkRun tt
              [embed_of (read_config Setup.configured)
                 (entry_of Sample.ref_row)
                 (Sample.alert "N426NA" "NASA" "1200")])
           (Raised TransportError) Setup.config_lines [Sample.ref_row]).
  - reflexivity.
  - vm_compute. reflexivity.
  - intros prog input_file [= _ <-]. now eexists.
  - vm_compute. reflexivity.
Defined.

(** ** Units and altitudes *)

(** X24: [distance_unit] gives one of four unit names, and each of the
    three that are not the default only for the exact name of the setting:
    another spelling, another case or a blank gives miles. *)
Theorem distance_unit_cases (config : Config) :
  In (distance_unit config) ["nm"; "km"; "m"; "mi"] /\
  (distance_unit config = "nm" <->
   get config "PF_DISTUNIT" "" = "nauticalmile") /\
  (distance_unit config = "km" <-> get config "PF_DISTUNIT" "" = "kilometer") /\
  (distance_unit config = "m" <-> get config "PF_DISTUNIT" "" = "meter") /\
  (distance_unit config = "mi" <->
   get config "PF_DISTUNIT" "" <> "nauticalmile" /\
   get config "PF_DISTUNIT" "" <> "kilometer" /\
   get config "PF_DISTUNIT" "" <> "meter").
Proof.
  unfold distance_unit. cbv zeta.
  set (d := get config "PF_DISTUNIT" "").
  destruct (String.eqb_spec d "nauticalmile") as [Hd | H1];
    [| destruct (String.eqb_spec d "kilometer") as [Hd | H2];
       [| destruct (String.eqb_spec d "meter") as [Hd | H3]]];
    cbn [In]; intuition (discriminate || congruence).
Qed.

Lemma isdigit_getitem (config : Config) (k : string) :
  PyText.isdigit (get config k "") = true ->
  getitem config k = Ok (get config k "").
Proof.
  unfold get, getitem. destruct (config !! k); [reflexivity | discriminate].
Qed.

Lemma all_chars_false (p : ascii -> bool) (s : string) :
  PyText.all_chars p s = false <->
  exists c, PyStr.contains c s = true /\ p c = false.
Proof.
  induction s as [| a s IH]; cbn [PyText.all_chars PyStr.contains].
  - split; [discriminate | intros (c & H & _); discriminate].
  - rewrite andb_false_iff, IH. split.
    + intros [H | (c & Hc & Hp)].
      * exists a. now rewrite Ascii.eqb_refl.
      * exists c. now rewrite Hc, orb_true_r.
    + intros (c & Hc & Hp). apply orb_true_iff in Hc as [Hc | Hc].
      * apply Ascii.eqb_eq in Hc as ->. now left.
      * right. now exists c.
Qed.

Lemma isdigit_false (s : string) :
  PyText.isdigit s = false <->
  s = "" \/ exists c, PyStr.contains c s = true /\ PyText.isdigit_char c = false.
Proof.
  destruct s as [| a s].
  - split; [now left | reflexivity].
  - unfold PyText.isdigit. rewrite all_chars_false. split.
    + now right.
    + intros [H | H]; [discriminate | exact H].
Qed.

Lemma decimal_value_nonneg (s : string) (acc : Z) :
  PyText.all_chars PyText.isdecimal_char s = true ->
  (0 <= acc)%Z -> (0 <= PyText.decimal_value acc s)%Z.
Proof.
  revert acc. induction s as [| c s IH]; intros acc Hd Hacc; [exact Hacc |].
  cbn [PyText.all_chars PyText.decimal_value] in *.
  apply andb_true_iff in Hd as [Hc Hs]. apply IH; [exact Hs |].
  unfold PyText.isdecimal_char in Hc.
  apply andb_true_iff in Hc as [Hlo _]. apply Nat.leb_le in Hlo. lia.
Qed.

Lemma isdecimal_isdigit (s : string) :
  s <> "" -> PyText.all_chars PyText.isdecimal_char s = true ->
  PyText.isdigit s = true.
Proof.
  intros Hne H. destruct s as [| a s]; [contradiction |].
  unfold PyText.isdigit. clear Hne.
  induction (String a s) as [| c t IH]; [reflexivity |].
  cbn [PyText.all_chars] in *. apply andb_true_iff in H as [Hc Ht].
  rewrite (IH Ht), andb_true_r.
  unfold PyText.isdigit_char, PyText.isdecimal_char in *.
  now rewrite Hc.
Qed.

Section AltitudeFacts.

Variable max_str_digits : nat.
Variable format_thousands : Z -> string.

(** X25: an elevation that is not written with digits alone is ignored.
    When [PF_ELEVATION] is unset, empty, or holds any character that is
    not a digit (a sign, a point, a blank), and the altitude is within
    the interpreter's digit limit, [altitude_str] does not raise and
    gives the altitude as it came, above sea level. *)
Theorem altitude_str_ignores_elevation (config : Config) (alt : Z) :
  get config "PF_ELEVATION" "" = "" \/
  (exists c, PyStr.contains c (get config "PF_ELEVATION" "") = true /\
             PyText.isdigit_char c = false) ->
  within_digit_limit max_str_digits alt = true ->
  altitude_str max_str_digits format_thousands config alt
  = Done (format_thousands alt +:+ altitude_unit config +:+ " " +:+ "MSL").
Proof.
  intros H _. apply isdigit_false in H.
  unfold altitude_str. cbv zeta. rewrite H. reflexivity.
Qed.

(** X26: an elevation written with the digits 0..9 (and within the
    interpreter's limit of length) is used when it is positive: the result
    is the altitude less the elevation, which may be negative, above
    ground; an elevation of zero leaves the altitude above sea level.
    The number written is taken to be within the interpreter's digit
    limit. *)
Theorem altitude_str_above_ground (config : Config) (alt : Z) (s : string) :
  config !! "PF_ELEVATION" = Some s ->
  s <> "" ->
  PyText.all_chars PyText.isdecimal_char s = true ->
  max_str_digits = 0 \/ String.length s <= max_str_digits ->
  within_digit_limit max_str_digits
    (if (0 <? PyText.decimal_value 0 s)%Z
     then (alt - PyText.decimal_value 0 s)%Z else alt) = true ->
  (0 <= PyText.decimal_value 0 s)%Z /\
  altitude_str max_str_digits format_thousands config alt
  = Done (if (0 <? PyText.decimal_value 0 s)%Z
          then format_thousands (alt - PyText.decimal_value 0 s)%Z
                 +:+ altitude_unit config +:+ " " +:+ "AGL"
          else format_thousands alt +:+ altitude_unit config +:+ " " +:+ "MSL").
Proof.
  intros Hs Hne Hd Hlim _.
  split; [now apply decimal_value_nonneg |].
  unfold altitude_str. cbv zeta.
  assert (Hget : get config "PF_ELEVATION" "" = s)
    by (unfold get; now rewrite Hs).
  rewrite Hget, (isdecimal_isdigit s Hne Hd).
  unfold getitem. rewrite Hs. unfold int_of_digits. rewrite Hd.
  replace ((0 <? max_str_digits)%nat
           && (max_str_digits <? String.length s)%nat)%bool with false.
  - now destruct (0 <? PyText.decimal_value 0 s)%Z.
  - symmetry. apply andb_false_iff.
    destruct Hlim as [-> | Hl]; [now left | right].
    apply Nat.ltb_ge. exact Hl.
Qed.

(** X27: [isdigit] does not protect [int].  When [PF_ELEVATION] passes
    [isdigit] but holds a superscript digit, or is longer than the
    interpreter's limit, [altitude_str] raises [ValueError]. *)
Theorem altitude_str_raises (config : Config) (alt : Z) :
  PyText.isdigit (get config "PF_ELEVATION" "") = true ->
  PyText.all_chars PyText.isdecimal_char (get config "PF_ELEVATION" "") = false
  \/ (0 < max_str_digits /\
      max_str_digits < String.length (get config "PF_ELEVATION" "")) ->
  altitude_str max_str_digits format_thousands config alt = Failed ValueError.
Proof.
  intros Hd H. unfold altitude_str. cbv zeta.
  rewrite Hd, (isdigit_getitem _ _ Hd). unfold int_of_digits.
  destruct H as [-> | [H0 Hl]]; [reflexivity |].
  destruct (PyText.all_chars PyText.isdecimal_char _); [| reflexivity].
  apply Nat.ltb_lt in H0, Hl. now rewrite H0, Hl.
Qed.

(** X28: the unit setting is a label.  For a given configuration and
    altitude, the number and the reference (MSL or AGL) of the result, or
    the failure, are the same whatever [PF_ALTUNIT] is set to; only the
    unit text changes, and no conversion between feet and meters is
    made. *)
Theorem altitude_str_unit_is_a_label (config : Config) (alt : Z) :
  exists core : outcome (Z * string),
    forall u,
      altitude_str max_str_digits format_thousands
        (<["PF_ALTUNIT" := u]> config) alt
      = match core with
        | Done (n, reference) =>
            Done (format_thousands n
                    +:+ (if String.eqb u "meter" then "m" else "ft")
                    +:+ " " +:+ reference)
        | Failed f => Failed f
        end.
Proof.
  exists (match (if PyText.isdigit (get config "PF_ELEVATION" "")
                 then match getitem config "PF_ELEVATION" with
                      | Ok s => int_of_digits max_str_digits s
                      | Raise x => Failed (Raised x)
                      end
                 else Done 0%Z) with
          | Failed f => Failed f
          | Done elevation =>
              Done (if (0 <? elevation)%Z then ((alt - elevation)%Z, "AGL")
                    else (alt, "MSL"))
          end).
  intros u. unfold altitude_str, get, getitem. cbv zeta.
  rewrite lookup_insert_eq, lookup_insert_ne by discriminate.
  cbn [default from_option id].
  destruct (PyText.isdigit (default "" (config !! "PF_ELEVATION")));
    [destruct (config !! "PF_ELEVATION") as [s |];
     [destruct (int_of_digits max_str_digits s) as [v | f] |] |];
    reflexivity.
Qed.

End AltitudeFacts.

Lemma altitude_str_ignores_elevation_witness :
  altitude_str 4300 (fun _ => "1,200") {[ "PF_ELEVATION" := "-5" ]} 1200
  = Done ("1,200"
            +:+ altitude_unit {[ "PF_ELEVATION" := "-5" ]}
            +:+ " " +:+ "MSL").
Proof.
  apply (altitude_str_ignores_elevation 4300 (fun _ => "1,200")
           {[ "PF_ELEVATION" := "-5" ]} 1200).
  - right. exists "-"%char. split; reflexivity.
  - vm_compute. reflexivity.
Defined.

Lemma altitude_str_above_ground_witness :
  (0 <= PyText.decimal_value 0 "100")%Z /\
  altitude_str 4300 (fun n => if (n =? 1100)%Z then "1,100" else "?")
    {[ "PF_ELEVATION" := "100" ]} 1200
  = Done (if (0 <? PyText.decimal_value 0 "100")%Z
          then (if (1200 - PyText.decimal_value 0 "100" =? 1100)%Z
                then "1,100" else "?")
                 +:+ altitude_unit {[ "PF_ELEVATION" := "100" ]}
                 +:+ " " +:+ "AGL"
          else (if (1200 =? 1100)%Z then "1,100" else "?")
                 +:+ altitude_unit {[ "PF_ELEVATION" := "100" ]}
                 +:+ " " +:+ "MSL").
Proof.
  apply (altitude_str_above_ground 4300
           (fun n => if (n =? 1100)%Z then "1,100" else "?")
           {[ "PF_ELEVATION" := "100" ]} 1200 "100").
  - reflexivity.
  - discriminate.
  - reflexivity.
  - right. cbn. lia.
  - vm_compute. reflexivity.
Defined.

Lemma altitude_str_raises_witness :
  altitude_str 4300 (fun _ => "")
    {[ "PF_ELEVATION" := String (ascii_of_nat 178) "" ]} 1200
  = Failed ValueError.
Proof.
  apply (altitude_str_raises 4300 (fun _ => "")
           {[ "PF_ELEVATION" := String (ascii_of_nat 178) "" ]} 1200).
  - reflexivity.
  - left. reflexivity.
Defined.
